(** * CareerRoadmapBot (lab4.py): a shallow embedding and its properties

    The bot walks a user through five questions (an aiogram finite-state
    form), then asks two text-generation backends for a roadmap and merges
    the two answers into one report.

    Python values are modelled as follows.
    - [str] is a sequence of Unicode code points: [pystr := list N].
      Literals of the source are written as Rocq strings (UTF-8 bytes) and
      decoded by [py].
    - [dict] with string keys is a [gmap pystr _].
    - A coroutine of a handler is a function in the monad [Fsm.M]: it
      threads the conversation context (the slot of the conversation in
      the FSM storage and the messages delivered to the user so far) and
      may raise.
    - The outside world (the two HTTP backends, Telegram delivery) is an
      oracle record [Fsm.Env].
    - Logging is left out.

    The file has three parts: the program (one module per class of the
    source), the vocabulary of the properties, and the properties. *)

From Stdlib Require Import String Ascii NArith ZArith QArith Lia.
From stdpp Require Import gmap list fin_maps.

Set Warnings "-register-all".

Local Open Scope N_scope.
Local Open Scope list_scope.

(** ** Python strings *)

Module Py.

Definition pystr := list N.

Fixpoint bytes_of (s : string) : list N :=
  match s with
  | EmptyString => []
  | String a r => N_of_ascii a :: bytes_of r
  end.

(** UTF-8 decoding of a well-formed byte sequence (source literals). *)
Fixpoint utf8_decode (bs : list N) : pystr :=
  match bs with
  | [] => []
  | b0 :: r0 =>
    if b0 <? 128 then b0 :: utf8_decode r0
    else match r0 with
    | [] => []
    | b1 :: r1 =>
      if b0 <? 224 then ((b0 - 192) * 64 + (b1 - 128)) :: utf8_decode r1
      else match r1 with
      | [] => []
      | b2 :: r2 =>
        if b0 <? 240
        then ((b0 - 224) * 4096 + (b1 - 128) * 64 + (b2 - 128)) :: utf8_decode r2
        else match r2 with
        | [] => []
        | b3 :: r3 =>
          ((b0 - 240) * 262144 + (b1 - 128) * 4096 + (b2 - 128) * 64 + (b3 - 128))
            :: utf8_decode r3
        end
      end
    end
  end.

Definition py (s : string) : pystr := utf8_decode (bytes_of s).

(** The escape [\n] of the source literals. *)
Definition nl : pystr := [10].

(** [str.isspace] on one code point (CPython's [_PyUnicode_IsWhitespace]). *)
Definition isspace (c : N) : bool :=
  ((9 <=? c) && (c <=? 13)) || ((28 <=? c) && (c <=? 32))
  || (c =? 133) || (c =? 160) || (c =? 5760)
  || ((8192 <=? c) && (c <=? 8202))
  || (c =? 8232) || (c =? 8233) || (c =? 8239) || (c =? 8287) || (c =? 12288).

Fixpoint lstrip (s : pystr) : pystr :=
  match s with
  | [] => []
  | c :: r => if isspace c then lstrip r else s
  end.

Definition rstrip (s : pystr) : pystr := rev (lstrip (rev s)).

(** [s.strip()] with no argument. *)
Definition strip (s : pystr) : pystr := rstrip (lstrip s).

(** [s.split(sep)] for a one-character separator: never empty. *)
Fixpoint split (sep : N) (s : pystr) : list pystr :=
  match s with
  | [] => [[]]
  | c :: r =>
    if c =? sep then [] :: split sep r
    else match split sep r with
         | h :: t => (c :: h) :: t
         | [] => [[c]]
         end
  end.

(** The separator of [State.state]. *)
Definition COLON : N := 58.

(** [l.index(x)]: position of the first occurrence, if any. *)
Fixpoint index (x : pystr) (l : list pystr) : option nat :=
  match l with
  | [] => None
  | y :: r => if decide (y = x) then Some O else S <$> index x r
  end.

(** Exceptions (all of them subclasses of [Exception]); those raised by the
    network layers carry the text of the error. *)
Inductive exn : Type :=
  | KeyError
  | IndexError
  | ValueError
  | TypeError
  | AttributeError
  | HTTPError (detail : pystr)
  | TelegramAPIError (detail : pystr).

Inductive res (A : Type) : Type :=
  | Ok (a : A)
  | Raise (e : exn).
Arguments Ok {A} a.
Arguments Raise {A} e.

Definition rbind {A B} (r : res A) (k : A -> res B) : res B :=
  match r with
  | Ok a => k a
  | Raise e => Raise e
  end.

End Py.
Import Py.

(** ** Python values decoded from JSON, and the HTTP layer *)

Module Json.

(** What [response.json()] can return.  A [PDict] lists the items of the
    dict (keys pairwise distinct); numbers are kept as rationals. *)
Inductive pyval : Type :=
  | PNone
  | PBool (b : bool)
  | PNum (q : Q)
  | PStr (s : pystr)
  | PList (l : list pyval)
  | PDict (items : list (pystr * pyval)).

Inductive pykey : Type :=
  | KStr (s : pystr)
  | KInt (i : nat).

Fixpoint assoc (k : pystr) (items : list (pystr * pyval)) : option pyval :=
  match items with
  | [] => None
  | (k', v) :: r => if decide (k' = k) then Some v else assoc k r
  end.

(** [v[k]] for a string key or a non-negative integer index. *)
Definition getitem (v : pyval) (k : pykey) : res pyval :=
  match v, k with
  | PDict items, KStr s =>
      match assoc s items with Some x => Ok x | None => Raise KeyError end
  | PDict _, KInt _ => Raise KeyError
  | PList l, KInt i =>
      match l !! i with Some x => Ok x | None => Raise IndexError end
  | PList _, KStr _ => Raise TypeError
  | PStr s, KInt i =>
      match s !! i with Some c => Ok (PStr [c]) | None => Raise IndexError end
  | PStr _, KStr _ => Raise TypeError
  | _, _ => Raise TypeError
  end.

(** [v[k1][k2]...[kn]], evaluated left to right. *)
Fixpoint getpath (v : pyval) (ks : list pykey) : res pyval :=
  match ks with
  | [] => Ok v
  | k :: r => rbind (getitem v k) (fun w => getpath w r)
  end.

(** Truth value of an object in a condition. *)
Definition truthy (v : pyval) : bool :=
  match v with
  | PNone => false
  | PBool b => b
  | PNum q => negb (Qnum q =? 0)%Z
  | PStr s => negb (bool_decide (s = []))
  | PList l => match l with [] => false | _ => true end
  | PDict items => match items with [] => false | _ => true end
  end.

End Json.
Import Json.

Module Http.

(** What one [client.post] does: it raises (connection error, timeout), or
    a response arrives, whose body may or may not be JSON. *)
Inductive post_outcome : Type :=
  | PostRaises (detail : pystr)
  | PostResponse (status_code : Z) (reason : pystr) (body : option pyval).

Record Response : Type := mkResponse {
  status_code : Z;
  reason_phrase : pystr;
  body : option pyval;
}.

(** The backends, as seen through [httpx.AsyncClient.post]: url, headers
    and JSON payload determine the outcome. *)
Definition transport : Type :=
  pystr -> list (pystr * pystr) -> pyval -> post_outcome.

Definition post (net : transport) (url : pystr) (headers : list (pystr * pystr))
    (json : pyval) : res Response :=
  match net url headers json with
  | PostRaises d => Raise (HTTPError d)
  | PostResponse st rs b => Ok (mkResponse st rs b)
  end.

Definition is_success (r : Response) : bool :=
  ((200 <=? status_code r) && (status_code r <=? 299))%Z.

(** [response.raise_for_status()] of httpx: raises unless the status is 2xx. *)
Definition raise_for_status (r : Response) : res unit :=
  if is_success r then Ok tt else Raise (HTTPError (reason_phrase r)).

(** [response.json()]: [JSONDecodeError] is a [ValueError]. *)
Definition json (r : Response) : res pyval :=
  match body r with
  | Some v => Ok v
  | None => Raise ValueError
  end.

End Http.

(** ** YandexGPT client *)

Module YandexGPTClient.

Definition BASE_URL : pystr :=
  py "https://llm.api.cloud.yandex.net/foundationModels/v1/completion".

Record t : Type := mk {
  headers : list (pystr * pystr);
  model_uri : pystr;
}.

Definition init (api_key folder_id : pystr) : t :=
  {| headers := [ (py "Authorization", py "Api-Key " ++ api_key);
                  (py "Content-Type", py "application/json") ];
     model_uri := py "gpt://" ++ folder_id ++ py "/yandexgpt-lite" |}.

Definition SYSTEM_TEXT : pystr :=
  py "Ты карьерный консультант. Составь детальный персонализированный роадмап.".

(** [data.get(key, '-')] *)
Definition get (data : gmap pystr pystr) (key : string) : pystr :=
  default (py "-") (data !! py key).

Definition _build_prompt (data : gmap pystr pystr) : pystr :=
  py "Составь детальный карьерный роадмап для профессии " ++ get data "profession" ++ py ". "
  ++ py "Учитывая что у пользователя текущий опыт: " ++ get data "experience" ++ py ", "
  ++ py "карьерные цели: " ++ get data "goals" ++ py ", текущие навыки: " ++ get data "skills" ++ py ", "
  ++ py "и предпочтения: " ++ get data "preferences" ++ py ". Включи:" ++ nl
  ++ py "1. Поэтапный план развития" ++ nl ++ py "2. Рекомендуемые обучающие ресурсы" ++ nl
  ++ py "3. Ключевые навыки для развития" ++ nl ++ py "4. Рекомендации по нетворкингу" ++ nl
  ++ py "5. Потенциальные карьерные треки".

Definition payload (self : t) (user_data : gmap pystr pystr) : pyval :=
  PDict [
    (py "modelUri", PStr (model_uri self));
    (py "completionOptions",
       PDict [ (py "stream", PBool false);
               (py "temperature", PNum (7 # 10));
               (py "maxTokens", PNum (1500 # 1)) ]);
    (py "messages",
       PList [ PDict [ (py "role", PStr (py "system"));
                       (py "text", PStr SYSTEM_TEXT) ];
               PDict [ (py "role", PStr (py "user"));
                       (py "text", PStr (_build_prompt user_data)) ] ])
  ].

(** [response.json()["result"]["alternatives"][0]["message"]["text"]] *)
Definition TEXT_PATH : list pykey :=
  [KStr (py "result"); KStr (py "alternatives"); KInt 0;
   KStr (py "message"); KStr (py "text")].

(** The body of the [try]. *)
Definition request (net : Http.transport) (self : t)
    (user_data : gmap pystr pystr) : res pyval :=
  rbind (Http.post net BASE_URL (headers self) (payload self user_data)) (fun response =>
  rbind (Http.raise_for_status response) (fun _ =>
  rbind (Http.json response) (fun j =>
  getpath j TEXT_PATH))).

(** [except Exception: ... return None] (the error is only logged). *)
Definition generate_roadmap (net : Http.transport) (self : t)
    (user_data : gmap pystr pystr) : pyval :=
  match request net self user_data with
  | Ok text => text
  | Raise exc => PNone
  end.

End YandexGPTClient.

(** ** Hyperbolic client (Llama-3.3-70B-Instruct) *)

Module HyperbolicClient.

Definition BASE_URL : pystr := py "https://api.hyperbolic.xyz/v1/chat/completions".

Record t : Type := mk {
  headers : list (pystr * pystr);
}.

Definition init (api_key : pystr) : t :=
  {| headers := [ (py "Content-Type", py "application/json");
                  (py "Authorization", py "Bearer " ++ api_key) ] |}.

Definition payload (prompt : pystr) : pyval :=
  PDict [
    (py "messages",
       PList [ PDict [ (py "role", PStr (py "user"));
                       (py "content", PStr prompt) ] ]);
    (py "model", PStr (py "meta-llama/Llama-3.3-70B-Instruct"));
    (py "max_tokens", PNum (512 # 1));
    (py "temperature", PNum (1 # 10));
    (py "top_p", PNum (9 # 10))
  ].

(** [response.json()["choices"][0]["message"]["content"]] *)
Definition TEXT_PATH : list pykey :=
  [KStr (py "choices"); KInt 0; KStr (py "message"); KStr (py "content")].

Definition request (net : Http.transport) (self : t) (prompt : pystr) : res pyval :=
  rbind (Http.post net BASE_URL (headers self) (payload prompt)) (fun response =>
  rbind (Http.raise_for_status response) (fun _ =>
  rbind (Http.json response) (fun j =>
  getpath j TEXT_PATH))).

Definition generate_analysis (net : Http.transport) (self : t) (prompt : pystr) : pyval :=
  match request net self prompt with
  | Ok text => text
  | Raise exc => PNone
  end.

End HyperbolicClient.

(** ** The form: FSM states of the dialogue *)

Module Form.

(** [class Form(StatesGroup)]: five [State] attributes. *)
Inductive t : Type :=
  | profession
  | experience
  | goals
  | skills
  | preferences.

#[global] Instance t_eq_dec : EqDecision t.
Proof. solve_decision. Defined.

(** The attribute name under which the state is declared. *)
Definition name (s : t) : pystr :=
  match s with
  | profession => py "profession"
  | experience => py "experience"
  | goals => py "goals"
  | skills => py "skills"
  | preferences => py "preferences"
  end.

(** [State.state]: the group name, a colon, the attribute name. *)
Definition state (s : t) : pystr := py "Form" ++ py ":" ++ name s.

(** [getattr(Form, n)] for the name of a state; other names have no
    [State] behind them. *)
Definition getattr (n : pystr) : res t :=
  if decide (n = py "profession") then Ok profession
  else if decide (n = py "experience") then Ok experience
  else if decide (n = py "goals") then Ok goals
  else if decide (n = py "skills") then Ok skills
  else if decide (n = py "preferences") then Ok preferences
  else Raise AttributeError.

Definition all : list t := [profession; experience; goals; skills; preferences].

End Form.

(** ** Conversation context and the handler monad *)

Module Fsm.

(** The record [MemoryStorage] keeps for one chat. *)
Record Slot : Type := mkSlot {
  state : option pystr;
  data : gmap pystr pystr;
}.

Definition empty : Slot := {| state := None; data := ∅ |}.

(** A message handed to Telegram. *)
Record OutMsg : Type := mkOut {
  text : pystr;
  parse_mode : option pystr;
}.

(** The outside world: the HTTP backends, and Telegram, which, given what
    the chat has received so far, delivers a message ([None]) or rejects it
    (error text). *)
Record Env : Type := mkEnv {
  net : Http.transport;
  tg_send : list OutMsg -> OutMsg -> option pystr;
}.

Record Ctx : Type := mkCtx {
  slot : Slot;
  outbox : list OutMsg;
}.

(** A coroutine: runs on a context, returns or raises, leaves a context. *)
Definition M (A : Type) : Type := Ctx -> res A * Ctx.

Definition ret {A} (a : A) : M A := fun c => (Ok a, c).

Definition bind {A B} (m : M A) (k : A -> M B) : M B :=
  fun c => match m c with
           | (Ok a, c') => k a c'
           | (Raise e, c') => (Raise e, c')
           end.

Definition lift {A} (r : res A) : M A := fun c => (r, c).

(** [try: body / except Exception as exc: handler] *)
Definition try_except {A} (body : M A) (handler : exn -> M A) : M A :=
  fun c => match body c with
           | (Ok a, c') => (Ok a, c')
           | (Raise exc, c') => handler exc c'
           end.

(** [try: body / finally: final]: [final] always runs; if it raises, its
    exception replaces the outcome of [body]. *)
Definition try_finally {A} (body : M A) (final : M unit) : M A :=
  fun c => let '(r, c') := body c in
           match final c' with
           | (Ok _, c'') => (r, c'')
           | (Raise e, c'') => (Raise e, c'')
           end.

(** [with suppress(Exception): body] *)
Definition suppress (body : M unit) : M unit :=
  fun c => match body c with
           | (Ok _, c') => (Ok tt, c')
           | (Raise _, c') => (Ok tt, c')
           end.

Section Primitives.
Context (E : Env).

(** [await message.answer(text, parse_mode=...)] *)
Definition answer (txt : pystr) (pm : option pystr) : M unit :=
  fun c => let m := mkOut txt pm in
           match tg_send E (outbox c) m with
           | None => (Ok tt, mkCtx (slot c) (outbox c ++ [m]))
           | Some detail => (Raise (TelegramAPIError detail), c)
           end.
End Primitives.

(** [await state.get_state()] *)
Definition get_state : M (option pystr) := fun c => (Ok (state (slot c)), c).

(** [await state.get_data()] *)
Definition get_data : M (gmap pystr pystr) := fun c => (Ok (data (slot c)), c).

(** [await s.set()] for a [State] [s]: only the state of the slot changes. *)
Definition set (s : Form.t) : M unit :=
  fun c => (Ok tt, mkCtx (mkSlot (Some (Form.state s)) (data (slot c))) (outbox c)).

(** [async with state.proxy() as data: data[k] = v] *)
Definition proxy_setitem (k v : pystr) : M unit :=
  fun c => (Ok tt, mkCtx (mkSlot (state (slot c)) (<[k := v]> (data (slot c)))) (outbox c)).

(** [await state.finish()]: state and data of the slot are reset. *)
Definition finish : M unit := fun c => (Ok tt, mkCtx empty (outbox c)).

End Fsm.

Notation "'do' x <- m ; k" := (Fsm.bind m (fun x => k))
  (at level 10, x name, m at level 100, k at level 200).

(** ** The bot *)

Module RoadmapGeneratorBot.
Import Fsm.

Record t : Type := mk {
  yandex_client : YandexGPTClient.t;
  hyperbolic_client : HyperbolicClient.t;
}.

Definition _STATE_ORDER : list pystr :=
  [py "profession"; py "experience"; py "goals"; py "skills"; py "preferences"].

Definition _QUESTIONS : gmap pystr pystr :=
  <[py "profession" :=
      py "📌 Назовите профессию или должность, для которой хотите получить роадмап:"]>
  (<[py "experience" :=
      py "🎯 Какой у вас текущий уровень опыта?" ++ nl ++ py "(начинающий/средний/профессионал)"]>
  (<[py "goals" :=
      py "🚀 Какие главные карьерные цели вы хотите достичь в ближайшие 3 года?"]>
  (<[py "skills" :=
      py "💡 Перечислите ваши текущие ключевые навыки (через запятую):"]>
  (<[py "preferences" :=
      py "🌟 Есть ли особые предпочтения или ограничения?" ++ nl
      ++ py "(удаленная работа, индустрия и т.д.)"]> ∅)))).

Definition WELCOME : pystr :=
  py "🌟 Добро пожаловать в CareerRoadmapBot!" ++ nl
  ++ py "Я помогу составить персонализированный карьерный план развития." ++ nl
  ++ py "Ответьте на несколько вопросов для начала:".

Definition ANALYSING : pystr := py "🔍 Анализирую данные... Это займет 1‑2 минуты".
Definition GENERATION_FAILED : pystr := py "⚠️ Произошла ошибка при генерации роадмапа".
Definition DONE : pystr := py "✅ Готово! Можете начать заново с /start".

Definition YANDEX_HEADER : pystr := py "🚀 **Основной роадмап от YandexGPT:**" ++ nl ++ nl.
Definition YANDEX_FALLBACK : pystr := py "Не удалось получить основной роадмап".
Definition HYPERBOLIC_HEADER : pystr :=
  py "🔍 **Дополнительные рекомендации от Llama‑3:**" ++ nl ++ nl.
Definition HYPERBOLIC_FALLBACK : pystr :=
  py "Не удалось получить дополнительные рекомендации".

Definition ANALYSIS_PREFIX : pystr := py "Дай дополнительные рекомендации для этого запроса: ".

(** [text.strip() if text else default]; only a [str] has [strip]. *)
Definition safe (txt : pyval) (dflt : pystr) : res pystr :=
  if truthy txt then
    match txt with
    | PStr s => Ok (strip s)
    | _ => Raise AttributeError
    end
  else Ok dflt.

Definition _format_responses (yandex hyperbolic : pyval) : res pystr :=
  rbind (safe yandex YANDEX_FALLBACK) (fun y =>
  rbind (safe hyperbolic HYPERBOLIC_FALLBACK) (fun h =>
  Ok (YANDEX_HEADER ++ y ++ nl ++ nl ++ HYPERBOLIC_HEADER ++ h))).

Section Handlers.
Context (E : Env) (self : t).

Definition _ask_question (st : Form.t) : M unit :=
  do _ <- set st;
  do q <- lift (match split COLON (Form.state st) !! 1%nat with
                | None => Raise IndexError
                | Some n => match _QUESTIONS !! n with
                            | None => Raise KeyError
                            | Some q => Ok q
                            end
                end);
  answer E q None.

Definition start_command : M unit :=
  do _ <- answer E WELCOME None;
  _ask_question Form.profession.

(** The body of the [try] of [_generate_and_send_roadmap]; the two
    calls of [asyncio.gather] do not raise and do not touch the context. *)
Definition generate_and_send : M unit :=
  do user_data <- get_data;
  let base_prompt := YandexGPTClient._build_prompt user_data in
  let yandex_resp :=
    YandexGPTClient.generate_roadmap (net E) (yandex_client self) user_data in
  let hyperbolic_resp :=
    HyperbolicClient.generate_analysis (net E) (hyperbolic_client self)
      (ANALYSIS_PREFIX ++ base_prompt) in
  do report <- lift (_format_responses yandex_resp hyperbolic_resp);
  answer E report (Some (py "Markdown")).

Definition _generate_and_send_roadmap : M unit :=
  do _ <- answer E ANALYSING None;
  try_finally
    (try_except generate_and_send
       (fun exc => answer E GENERATION_FAILED None))
    (suppress (do _ <- finish; answer E DONE None)).

(** [_STATE_ORDER[idx + 1] if idx + 1 < len(_STATE_ORDER) else None],
    [None] as well when [index] raises [ValueError]. *)
Definition next_state_name (state_name : pystr) : option pystr :=
  match index state_name _STATE_ORDER with
  | Some idx =>
      if (idx + 1 <? length _STATE_ORDER)%nat then _STATE_ORDER !! (idx + 1)%nat
      else None
  | None => None
  end.

Definition process_answer (message_text : pystr) : M unit :=
  do current_state_full <- get_state;
  match current_state_full with
  | None => ret tt
  | Some current =>
    if bool_decide (current = []) then ret tt
    else
      do state_name <- lift (match split COLON current !! 1%nat with
                             | Some n => Ok n
                             | None => Raise IndexError
                             end);
      do _ <- proxy_setitem state_name (strip message_text);
      match next_state_name state_name with
      | Some n =>
          if bool_decide (n = []) then _generate_and_send_roadmap
          else
            do st <- lift (Form.getattr n);
            _ask_question st
      | None => _generate_and_send_roadmap
      end
  end.

End Handlers.

End RoadmapGeneratorBot.

(** ** Configuration *)

Module Config.

(** What start-up code does: it returns, or it calls [exit(code)] after
    logging an error message. *)
Inductive startup (A : Type) : Type :=
  | Loaded (a : A)
  | Exit (code : Z) (logged : pystr).
Arguments Loaded {A} a.
Arguments Exit {A} code logged.

Definition sbind {A B} (s : startup A) (k : A -> startup B) : startup B :=
  match s with
  | Loaded a => k a
  | Exit code logged => Exit code logged
  end.

Definition MISSING : pystr := py "❌ Отсутствует обязательная переменная окружения: ".

(** [os.getenv(name)] on the process environment (after [load_dotenv()]);
    [if not value] holds for an unset and for an empty variable. *)
Definition _get_env_var (environ : gmap pystr pystr) (name : pystr) : startup pystr :=
  match environ !! name with
  | Some value =>
      if bool_decide (value = []) then Exit 1 (MISSING ++ name) else Loaded value
  | None => Exit 1 (MISSING ++ name)
  end.

Record t : Type := mk {
  API_TOKEN : pystr;
  YANDEX_GPT_API_KEY : pystr;
  YANDEX_FOLDER_ID : pystr;
  HYPERBOLIC_API_KEY : pystr;
}.

(** [Config.__init__]: the four variables, read in this order. *)
Definition init (environ : gmap pystr pystr) : startup t :=
  sbind (_get_env_var environ (py "TELEGRAM_API_TOKEN")) (fun api_token =>
  sbind (_get_env_var environ (py "YANDEX_GPT_API_KEY")) (fun yandex_gpt_api_key =>
  sbind (_get_env_var environ (py "YANDEX_FOLDER_ID")) (fun yandex_folder_id =>
  sbind (_get_env_var environ (py "HYPERBOLIC_API_KEY")) (fun hyperbolic_api_key =>
  Loaded (mk api_token yandex_gpt_api_key yandex_folder_id hyperbolic_api_key))))).

End Config.

(** ** Construction of the bot, registration of the handlers, entry point *)

Module App.
Import Fsm.

(** What a constructor does: it returns the object, or it raises. *)
Inductive constructed (A : Type) : Type :=
  | Constructed (a : A)
  | Raises (message : pystr).
Arguments Constructed {A} a.
Arguments Raises {A} message.

Section Construction.
(** [Bot(token=...)] of aiogram, which checks the token it is given and
    raises for one it rejects.  The check belongs to the library: it is a
    parameter here. *)
Variable Bot : pystr -> constructed unit.

(** [RoadmapGeneratorBot.__init__]: the Telegram bot first, then the two
    clients built from the configuration. *)
Definition bot_of_config (config : Config.t) : constructed RoadmapGeneratorBot.t :=
  match Bot (Config.API_TOKEN config) with
  | Raises message => Raises message
  | Constructed _ =>
      Constructed
        {| RoadmapGeneratorBot.yandex_client :=
             YandexGPTClient.init (Config.YANDEX_GPT_API_KEY config)
               (Config.YANDEX_FOLDER_ID config);
           RoadmapGeneratorBot.hyperbolic_client :=
             HyperbolicClient.init (Config.HYPERBOLIC_API_KEY config) |}
  end.

(** The entry point, up to the call of [run]. *)
Definition main (environ : gmap pystr pystr)
    : Config.startup (constructed RoadmapGeneratorBot.t) :=
  Config.sbind (Config.init environ) (fun cfg => Config.Loaded (bot_of_config cfg)).

End Construction.

(** The states [process_answer] is registered for. *)
Definition REGISTERED_STATES : list pystr :=
  [Form.state Form.profession; Form.state Form.experience; Form.state Form.goals;
   Form.state Form.skills; Form.state Form.preferences].

Section Dispatch.
(** The command filter of aiogram for [commands=["start"]] on the text of
    a message: it passes, it does not pass, or it raises.  The filter
    belongs to the library: it is a parameter here. *)
Variable commands_start : pystr -> res bool.
Variables (E : Env) (self : RoadmapGeneratorBot.t).

(** One text message goes to the first registered handler whose filters
    pass: [start_command] for the command in any state ([state="*"]),
    [process_answer] in one of its five states; otherwise the update is
    left unhandled.  An exception of a filter leaves the dispatcher before
    any handler is called. *)
Definition dispatch (message_text : pystr) : M unit :=
  do is_start <- lift (commands_start message_text);
  if is_start : bool then RoadmapGeneratorBot.start_command E
  else
    do current <- get_state;
    match current with
    | Some st =>
        if bool_decide (st ∈ REGISTERED_STATES)
        then RoadmapGeneratorBot.process_answer E self message_text
        else ret tt
    | None => ret tt
    end.

End Dispatch.

End App.

(** * Vocabulary of the properties *)

(** ** Strings *)

(** [t] is [s] without its leading and trailing white space. *)
Definition stripped_of (s t : pystr) : Prop :=
  (exists p q, s = p ++ t ++ q /\ forallb isspace p = true /\ forallb isspace q = true)
  /\ (forall c r, t = c :: r -> isspace c = false)
  /\ (forall c r, t = r ++ [c] -> isspace c = false).

(** ** Exchanges with a backend *)

(** The exchange of one [generate_roadmap] call and of one
    [generate_analysis] call. *)
Definition yandex_exchange (net : Http.transport) (yc : YandexGPTClient.t)
    (data : gmap pystr pystr) : Http.post_outcome :=
  net YandexGPTClient.BASE_URL (YandexGPTClient.headers yc) (YandexGPTClient.payload yc data).

Definition hyperbolic_exchange (net : Http.transport) (hc : HyperbolicClient.t)
    (prompt : pystr) : Http.post_outcome :=
  net HyperbolicClient.BASE_URL (HyperbolicClient.headers hc) (HyperbolicClient.payload prompt).

(** How an exchange with a backend can go wrong: the transport raises, the
    status is not 2xx, the body is not JSON, or the JSON lacks the path. *)
Inductive exchange_fails (path : list pykey) : Http.post_outcome -> Prop :=
  | fails_transport d : exchange_fails path (Http.PostRaises d)
  | fails_status st rs b :
      ~ (200 <= st <= 299)%Z -> exchange_fails path (Http.PostResponse st rs b)
  | fails_not_json st rs : exchange_fails path (Http.PostResponse st rs None)
  | fails_shape st rs j e :
      getpath j path = Raise e -> exchange_fails path (Http.PostResponse st rs (Some j)).

(** A 2xx response whose JSON body holds [v] at the path. *)
Definition exchange_yields (path : list pykey) (o : Http.post_outcome) (v : pyval) : Prop :=
  exists st rs j,
    o = Http.PostResponse st rs (Some j) /\ (200 <= st <= 299)%Z /\ getpath j path = Ok v.

(** The provider failed, or answered with no text. *)
Definition no_text (path : list pykey) (o : Http.post_outcome) : Prop :=
  exchange_fails path o \/ exchange_yields path o PNone \/ exchange_yields path o (PStr []).

(** The provider succeeded with the text [s]. *)
Definition real_text (path : list pykey) (o : Http.post_outcome) (s : pystr) : Prop :=
  exchange_yields path o (PStr s) /\ s <> [].

(** ** The merged report *)

(** The two labelled sections, the primary one first. *)
Definition report (yandex_body hyperbolic_body : pystr) : pystr :=
  RoadmapGeneratorBot.YANDEX_HEADER ++ yandex_body ++ nl ++ nl
  ++ RoadmapGeneratorBot.HYPERBOLIC_HEADER ++ hyperbolic_body.

(** A provider result of the declared type [Optional[str]]. *)
Definition of_optional (o : option pystr) : pyval :=
  match o with
  | None => PNone
  | Some s => PStr s
  end.

(** The body of a section as the specification words it: the stripped
    text when the provider returned a non-empty string, the fallback when
    the text is absent or empty. *)
Definition section_body (returned : option pystr) (fallback : pystr) : pystr :=
  match returned with
  | None => fallback
  | Some s => if decide (s = []) then fallback else strip s
  end.

(** What the [try] of [_generate_and_send_roadmap] computes before it
    sends: both results, formatted. *)
Definition aggregated (net : Http.transport) (self : RoadmapGeneratorBot.t)
    (user_data : gmap pystr pystr) : res pystr :=
  RoadmapGeneratorBot._format_responses
    (YandexGPTClient.generate_roadmap net (RoadmapGeneratorBot.yandex_client self) user_data)
    (HyperbolicClient.generate_analysis net (RoadmapGeneratorBot.hyperbolic_client self)
       (RoadmapGeneratorBot.ANALYSIS_PREFIX ++ YandexGPTClient._build_prompt user_data)).

(** The two exchanges of one aggregation. *)
Definition yandex_outcome (net : Http.transport) (self : RoadmapGeneratorBot.t)
    (user_data : gmap pystr pystr) : Http.post_outcome :=
  yandex_exchange net (RoadmapGeneratorBot.yandex_client self) user_data.

Definition hyperbolic_outcome (net : Http.transport) (self : RoadmapGeneratorBot.t)
    (user_data : gmap pystr pystr) : Http.post_outcome :=
  hyperbolic_exchange net (RoadmapGeneratorBot.hyperbolic_client self)
    (RoadmapGeneratorBot.ANALYSIS_PREFIX ++ YandexGPTClient._build_prompt user_data).

(** ** The dialogue *)

(** The successor in the order table. *)
Definition next (f : Form.t) : option Form.t :=
  match f with
  | Form.profession => Some Form.experience
  | Form.experience => Some Form.goals
  | Form.goals => Some Form.skills
  | Form.skills => Some Form.preferences
  | Form.preferences => None
  end.

(** The position of a field in the order table. *)
Definition rank (f : Form.t) : nat :=
  match f with
  | Form.profession => 0
  | Form.experience => 1
  | Form.goals => 2
  | Form.skills => 3
  | Form.preferences => 4
  end.

(** The prompt text of a field. *)
Definition question (f : Form.t) : pystr :=
  default [] (RoadmapGeneratorBot._QUESTIONS !! Form.name f).

(** The context with the answer [v] stored under [k]. *)
Definition stored (k v : pystr) (c : Fsm.Ctx) : Fsm.Ctx :=
  Fsm.mkCtx (Fsm.mkSlot (Fsm.state (Fsm.slot c)) (<[k := v]> (Fsm.data (Fsm.slot c))))
            (Fsm.outbox c).

(** The context moved to the state of field [f]. *)
Definition moved (f : Form.t) (c : Fsm.Ctx) : Fsm.Ctx :=
  Fsm.mkCtx (Fsm.mkSlot (Some (Form.state f)) (Fsm.data (Fsm.slot c))) (Fsm.outbox c).

(** The context once the message [m] has been delivered. *)
Definition delivered (m : Fsm.OutMsg) (c : Fsm.Ctx) : Fsm.Ctx :=
  Fsm.mkCtx (Fsm.slot c) (Fsm.outbox c ++ [m]).

Definition notice : Fsm.OutMsg := Fsm.mkOut RoadmapGeneratorBot.ANALYSING None.
Definition failure_notice : Fsm.OutMsg := Fsm.mkOut RoadmapGeneratorBot.GENERATION_FAILED None.
Definition done_notice : Fsm.OutMsg := Fsm.mkOut RoadmapGeneratorBot.DONE None.

(** The closing message, if Telegram takes it. *)
Definition done_tail (E : Fsm.Env) (log : list Fsm.OutMsg) : list Fsm.OutMsg :=
  match Fsm.tg_send E log done_notice with
  | None => [done_notice]
  | Some _ => []
  end.

(** The context after the [finally] block. *)
Definition cleaned (E : Fsm.Env) (c : Fsm.Ctx) : Fsm.Ctx :=
  Fsm.mkCtx Fsm.empty (Fsm.outbox c ++ done_tail E (Fsm.outbox c)).

(** [try: ... except Exception: ...] of [_generate_and_send_roadmap]. *)
Definition guarded (E : Fsm.Env) (self : RoadmapGeneratorBot.t) : Fsm.M unit :=
  Fsm.try_except (RoadmapGeneratorBot.generate_and_send E self)
    (fun exc => Fsm.answer E RoadmapGeneratorBot.GENERATION_FAILED None).

(** ** Sessions *)

(** The two operations on a session: the [/start] command, handled by
    [start_command] in any state, and a text message, handled by
    [process_answer]. *)
Inductive op : Type :=
  | Start
  | SubmitAnswer (rawText : pystr).

Definition exec (E : Fsm.Env) (self : RoadmapGeneratorBot.t) (o : op) : Fsm.M unit :=
  match o with
  | Start => RoadmapGeneratorBot.start_command E
  | SubmitAnswer rawText => RoadmapGeneratorBot.process_answer E self rawText
  end.

(** One update handled; an exception of the handler is logged by the
    dispatcher and the context it left stays. *)
Definition step (E : Fsm.Env) (self : RoadmapGeneratorBot.t) (c : Fsm.Ctx) (o : op) : Fsm.Ctx :=
  snd (exec E self o c).

Definition run (E : Fsm.Env) (self : RoadmapGeneratorBot.t) (ops : list op) (c : Fsm.Ctx)
    : Fsm.Ctx :=
  fold_left (step E self) ops c.

(** A chat the bot has not seen yet. *)
Definition fresh : Fsm.Ctx := Fsm.mkCtx Fsm.empty [].

(** The address of a slot in [MemoryStorage]: chat id and user id. *)
Abbreviation address := (Z * Z)%type.

(** [MemoryStorage] and what each conversation has received. *)
Record World : Type := mkWorld {
  storage : gmap address Fsm.Slot;
  chats : gmap address (list Fsm.OutMsg);
}.

(** The context of a chat; a chat never seen has the empty slot. *)
Definition context_of (w : World) (chat : address) : Fsm.Ctx :=
  Fsm.mkCtx (default Fsm.empty (storage w !! chat)) (default [] (chats w !! chat)).

(** An update of [chat] is handled on the context of that chat. *)
Definition handle (E : Fsm.Env) (self : RoadmapGeneratorBot.t) (chat : address) (o : op)
    (w : World) : World :=
  let c' := step E self (context_of w chat) o in
  mkWorld (<[chat := Fsm.slot c']> (storage w)) (<[chat := Fsm.outbox c']> (chats w)).

(** ** The session invariant *)

(** The invariant as the specification words it, for a session at a
    field: answers are stored only for fields strictly before it. *)
Definition answered_only_before (s : Fsm.Slot) : Prop :=
  forall f, Fsm.state s = Some (Form.state f) ->
  forall k, is_Some (Fsm.data s !! k) -> exists g, k = Form.name g /\ (rank g < rank f)%nat.

(** The invariant the code keeps: a session without state has no
    answers; a session at a field has an answer for every field before
    it, and answers for fields only. *)
Definition session_inv (s : Fsm.Slot) : Prop :=
  match Fsm.state s with
  | None => Fsm.data s = ∅
  | Some st =>
      exists f, st = Form.state f
        /\ (forall g, (rank g < rank f)%nat -> is_Some (Fsm.data s !! Form.name g))
        /\ (forall k, is_Some (Fsm.data s !! k) -> exists g, k = Form.name g)
  end.

(** ** The prompt template *)

(** The text put in the place of a field: its answer, or a dash. *)
Definition field_text (data : gmap pystr pystr) (k : pystr) : pystr :=
  default (py "-") (data !! k).

(** The fixed text before each of the five fields, and after the last. *)
Definition LEAD_INS : list pystr :=
  [ py "Составь детальный карьерный роадмап для профессии ";
    py ". " ++ py "Учитывая что у пользователя текущий опыт: ";
    py ", " ++ py "карьерные цели: ";
    py ", текущие навыки: ";
    py ", " ++ py "и предпочтения: " ].

Definition CLOSING : pystr :=
  py ". Включи:" ++ nl
  ++ py "1. Поэтапный план развития" ++ nl ++ py "2. Рекомендуемые обучающие ресурсы" ++ nl
  ++ py "3. Ключевые навыки для развития" ++ nl ++ py "4. Рекомендации по нетворкингу" ++ nl
  ++ py "5. Потенциальные карьерные треки".

(** Lead-in, value, lead-in, value, ..., closing text. *)
Fixpoint interleave (leads values : list pystr) (closing : pystr) : pystr :=
  match leads, values with
  | l :: ls, v :: vs => l ++ v ++ interleave ls vs closing
  | _, _ => closing
  end.

(** ** Concrete environments and sessions *)

(** A backend that answers YandexGPT requests with padded text and lets
    every other request time out. *)
Definition net_yandex_only : Http.transport :=
  fun url _ _ =>
    if decide (url = YandexGPTClient.BASE_URL) then
      Http.PostResponse 200 (py "OK")
        (Some (PDict [(py "result",
           PDict [(py "alternatives",
             PList [PDict [(py "message",
                      PDict [(py "role", PStr (py "assistant"));
                             (py "text", PStr (py "  Step 1 "))])]])])]))
    else Http.PostRaises (py "ReadTimeout").

(** A network that differs from [net_yandex_only] on other requests only. *)
Definition net_yandex_only' : Http.transport :=
  fun url headers payload =>
    if decide (url = py "https://example.org/") then Http.PostRaises (py "unreachable")
    else net_yandex_only url headers payload.

(** A backend where only Hyperbolic works; YandexGPT answers 503. *)
Definition net_hyperbolic_only : Http.transport :=
  fun url _ _ =>
    if decide (url = HyperbolicClient.BASE_URL) then
      Http.PostResponse 200 (py "OK")
        (Some (PDict [(py "choices",
           PList [PDict [(py "message",
                    PDict [(py "role", PStr (py "assistant"));
                           (py "content", PStr (py " Learn SQL "))])]])]))
    else Http.PostResponse 503 (py "Service Unavailable") None.

(** Both backends work; no backend can be reached. *)
Definition net_both : Http.transport :=
  fun url headers payload =>
    if decide (url = YandexGPTClient.BASE_URL) then net_yandex_only url headers payload
    else net_hyperbolic_only url headers payload.

Definition net_down : Http.transport :=
  fun _ _ _ => Http.PostRaises (py "ConnectError").

(** A YandexGPT answer whose text field is a number, not a string. *)
Definition net_number_text : Http.transport :=
  fun url _ _ =>
    if decide (url = YandexGPTClient.BASE_URL) then
      Http.PostResponse 200 (py "OK")
        (Some (PDict [(py "result",
           PDict [(py "alternatives",
             PList [PDict [(py "message", PDict [(py "text", PNum (5 # 1))])]])])]))
    else Http.PostRaises (py "ReadTimeout").

(** Telegram takes every message. *)
Definition tg_accepts_all : list Fsm.OutMsg -> Fsm.OutMsg -> option pystr :=
  fun _ _ => None.

Definition bot0 : RoadmapGeneratorBot.t :=
  {| RoadmapGeneratorBot.yandex_client := YandexGPTClient.init (py "key") (py "folder");
     RoadmapGeneratorBot.hyperbolic_client := HyperbolicClient.init (py "key") |}.

Definition env_ok : Fsm.Env := Fsm.mkEnv net_yandex_only tg_accepts_all.

Definition last_step : Fsm.Ctx :=
  Fsm.mkCtx (Fsm.mkSlot (Some (Form.state Form.preferences))
               (<[py "profession" := py "QA"]> ∅)) [].

Definition at_goals : Fsm.Ctx :=
  Fsm.mkCtx (Fsm.mkSlot (Some (Form.state Form.goals))
               (<[py "experience" := py "junior"]> (<[py "profession" := py "QA"]> ∅))) [].

(** Two private chats. *)
Definition alice : address := (7, 7)%Z.
Definition bob : address := (8, 8)%Z.

(** The session of [alice] after [/start] and two answers. *)
Definition two_answers : World :=
  handle env_ok bot0 alice (SubmitAnswer (py "junior"))
    (handle env_ok bot0 alice (SubmitAnswer (py "QA"))
       (handle env_ok bot0 alice Start (mkWorld ∅ ∅))).

(** A session restarted after two answers, and a session run to the end. *)
Definition restarted : Fsm.Ctx :=
  run env_ok bot0
    [Start; SubmitAnswer (py "QA"); SubmitAnswer (py "junior"); Start] fresh.

Definition completed : Fsm.Ctx :=
  run env_ok bot0
    (Start :: (SubmitAnswer <$> [py "QA"; py "junior"; py "lead"; py "sql"; py "remote"]))
    fresh.

(** ** Further vocabulary *)

(** What a [generate_roadmap] or [generate_analysis] call returns, given
    how its exchange went: the value at the path of a 2xx JSON body that
    has it, [None] otherwise. *)
Definition result_of (path : list pykey) (o : Http.post_outcome) : pyval :=
  match o with
  | Http.PostRaises _ => PNone
  | Http.PostResponse st _ body =>
      if ((200 <=? st) && (st <=? 299))%Z then
        match body with
        | Some j => match getpath j path with
                    | Ok v => v
                    | Raise _ => PNone
                    end
        | None => PNone
        end
      else PNone
  end.

(** A backend that answers, with the text [reply], the chat request whose
    user content is exactly [wanted], and no other request. *)
Definition net_wants_prompt (wanted reply : pystr) : Http.transport :=
  fun _ _ payload =>
    match getpath payload [KStr (py "messages"); KInt 0; KStr (py "content")] with
    | Ok (PStr p) =>
        if decide (p = wanted) then
          Http.PostResponse 200 (py "OK")
            (Some (PDict [(py "choices",
               PList [PDict [(py "message", PDict [(py "content", PStr reply)])]])]))
        else Http.PostRaises (py "another prompt")
    | _ => Http.PostRaises (py "no prompt")
    end.

(** The names [Config.__init__] reads, in its order. *)
Definition REQUIRED : list pystr :=
  [py "TELEGRAM_API_TOKEN"; py "YANDEX_GPT_API_KEY"; py "YANDEX_FOLDER_ID";
   py "HYPERBOLIC_API_KEY"].

(** The variable is set to a non-empty value. *)
Definition provided (environ : gmap pystr pystr) (name : pystr) : Prop :=
  exists value, environ !! name = Some value /\ value <> [].

(** A result [text.strip() if text else default] can handle: falsy, or a
    string. *)
Definition strippable (v : pyval) : bool :=
  match v with
  | PStr _ => true
  | _ => negb (truthy v)
  end.

(** The section body for any result that is [strippable]. *)
Definition body_of (v : pyval) (fallback : pystr) : pystr :=
  match v with
  | PStr (c :: s) => strip (c :: s)
  | _ => fallback
  end.

(** The JSON body has the shape YandexGPT documents, with [v] as text. *)
Definition yandex_body_shape (j v : pyval) : Prop :=
  exists top result alternative more message,
    j = PDict top
    /\ assoc (py "result") top = Some (PDict result)
    /\ assoc (py "alternatives") result = Some (PList (PDict alternative :: more))
    /\ assoc (py "message") alternative = Some (PDict message)
    /\ assoc (py "text") message = Some v.

(** The JSON body has the shape Hyperbolic documents, with [v] as content. *)
Definition hyperbolic_body_shape (j v : pyval) : Prop :=
  exists top choice more message,
    j = PDict top
    /\ assoc (py "choices") top = Some (PList (PDict choice :: more))
    /\ assoc (py "message") choice = Some (PDict message)
    /\ assoc (py "content") message = Some v.

(** The five answers of one pass through the form, stored over [old]. *)
Definition answered (old : gmap pystr pystr) (a1 a2 a3 a4 a5 : pystr) : gmap pystr pystr :=
  <[Form.name Form.preferences := a5]>
    (<[Form.name Form.skills := a4]>
      (<[Form.name Form.goals := a3]>
        (<[Form.name Form.experience := a2]>
          (<[Form.name Form.profession := a1]> old)))).

(** The message that ends the generation: the report, or the apology. *)
Definition result_message (E : Fsm.Env) (self : RoadmapGeneratorBot.t)
    (user_data : gmap pystr pystr) : Fsm.OutMsg :=
  match aggregated (Fsm.net E) self user_data with
  | Ok r => Fsm.mkOut r (Some (py "Markdown"))
  | Raise _ => failure_notice
  end.

(** The texts the bot sends as they are. *)
Definition FIXED_TEXTS : list pystr :=
  [RoadmapGeneratorBot.WELCOME; RoadmapGeneratorBot.ANALYSING;
   RoadmapGeneratorBot.GENERATION_FAILED; RoadmapGeneratorBot.DONE]
  ++ (question <$> Form.all).

(** A message the bot can send: a fixed text without parse mode, or a
    report of some answers, as Markdown. *)
Definition bot_message (E : Fsm.Env) (self : RoadmapGeneratorBot.t) (m : Fsm.OutMsg) : Prop :=
  (Fsm.parse_mode m = None /\ Fsm.text m ∈ FIXED_TEXTS)
  \/ (Fsm.parse_mode m = Some (py "Markdown")
      /\ exists user_data, aggregated (Fsm.net E) self user_data = Ok (Fsm.text m)).

(** A token check for the examples: no white space, decimal digits
    before the first colon, and something after it. *)
Fixpoint partition_colon (s : pystr) : pystr * option pystr :=
  match s with
  | [] => ([], None)
  | ch :: r =>
      if (ch =? 58)%N then ([], Some r)
      else let (l, o) := partition_colon r in (ch :: l, o)
  end.

Definition token_check (token : pystr) : App.constructed unit :=
  if existsb isspace token then App.Raises (py "Token is invalid!")
  else
    match partition_colon token with
    | (number, Some secret) =>
        if negb (bool_decide (number = []))
           && forallb (fun ch => (48 <=? ch)%N && (ch <=? 57)%N) number
           && negb (bool_decide (secret = []))
        then App.Constructed tt
        else App.Raises (py "Token is invalid!")
    | (_, None) => App.Raises (py "Token is invalid!")
    end.

(** A command filter for the examples: an empty text does not pass, a
    text of white space raises, and any other text passes when its first
    word is [/start]. *)
Fixpoint first_word (s : pystr) : pystr :=
  match s with
  | [] => []
  | ch :: r => if isspace ch then [] else ch :: first_word r
  end.

Definition first_word_start (message_text : pystr) : res bool :=
  if bool_decide (message_text = []) then Ok false
  else if bool_decide (lstrip message_text = []) then Raise ValueError
  else Ok (bool_decide (first_word (lstrip message_text) = py "/start")).

(** An environment with all four variables, and one without folder id. *)
Definition environ_ok : gmap pystr pystr :=
  <[py "TELEGRAM_API_TOKEN" := py "t0k"]>
    (<[py "YANDEX_GPT_API_KEY" := py "ykey"]>
      (<[py "YANDEX_FOLDER_ID" := py "folder"]>
        (<[py "HYPERBOLIC_API_KEY" := py "hkey"]> ∅))).

Definition environ_no_folder : gmap pystr pystr :=
  <[py "YANDEX_FOLDER_ID" := []]> environ_ok.

(** The same environment with a token of the shape Telegram gives, and
    with another such token. *)
Definition environ_token : gmap pystr pystr :=
  <[py "TELEGRAM_API_TOKEN" := py "123456:ABC"]> environ_ok.

Definition environ_token' : gmap pystr pystr :=
  <[py "TELEGRAM_API_TOKEN" := py "654321:XYZ"]> environ_ok.

(** YandexGPT answers with a string where the list of alternatives
    belongs; Hyperbolic answers well. *)
Definition net_string_list : Http.transport :=
  fun url _ _ =>
    if decide (url = YandexGPTClient.BASE_URL) then
      Http.PostResponse 200 (py "OK")
        (Some (PDict [(py "result", PDict [(py "alternatives", PStr (py "abc"))])]))
    else
      Http.PostResponse 200 (py "OK")
        (Some (PDict [(py "choices",
           PList [PDict [(py "message", PDict [(py "content", PStr (py "ok"))])]])])).

(** Telegram rejects the generic failure message only. *)
Definition tg_rejects_failure : list Fsm.OutMsg -> Fsm.OutMsg -> option pystr :=
  fun _ m =>
    if bool_decide (Fsm.text m = RoadmapGeneratorBot.GENERATION_FAILED)
    then Some (py "Bad Request") else None.

(** Telegram rejects everything. *)
Definition tg_rejects_all : list Fsm.OutMsg -> Fsm.OutMsg -> option pystr :=
  fun _ _ => Some (py "Forbidden").

(** Telegram rejects the questions of the form only. *)
Definition tg_rejects_questions : list Fsm.OutMsg -> Fsm.OutMsg -> option pystr :=
  fun _ m =>
    if bool_decide (Fsm.text m ∈ (question <$> Form.all))
    then Some (py "Bad Request") else None.

(** A session that has answered four questions. *)
Definition at_last : Fsm.Ctx :=
  run env_ok bot0
    (Start :: (SubmitAnswer <$> [py "QA"; py "junior"; py "lead"; py "sql"])) fresh.

(** Every stored answer is its own [strip]. *)
Definition all_stripped (s : Fsm.Slot) : Prop :=
  forall k v, Fsm.data s !! k = Some v -> strip v = v.

(** A session in a state the form does not know. *)
Definition odd_state : Fsm.Ctx :=
  Fsm.mkCtx (Fsm.mkSlot (Some (py "Other:hobby")) ∅) [].

(** * Properties *)

Example py_ascii : py "a:b" = [97; 58; 98].
Proof. reflexivity. Qed.

Example py_cyrillic_emoji : py "Я🚀‑" = [1071; 128640; 8209].
Proof. reflexivity. Qed.

Example split_state : split COLON (py "Form:goals") = [py "Form"; py "goals"].
Proof. reflexivity. Qed.

Example strip_ex : strip (py "  a b
 ") = py "a b".
Proof. reflexivity. Qed.

(** ** Strings *)

Section StringFacts.

Lemma lstrip_blank (s : pystr) : forallb isspace s = true -> lstrip s = [].
Proof.
  induction s as [|c r IH]; simpl; [reflexivity|].
  intros H. apply andb_prop in H as [Hc Hr]. rewrite Hc. exact (IH Hr).
Qed.

Lemma strip_blank (s : pystr) : forallb isspace s = true -> strip s = [].
Proof.
  intros H. unfold strip, rstrip. rewrite (lstrip_blank s H). reflexivity.
Qed.

Lemma lstrip_suffix (s : pystr) : exists p, s = p ++ lstrip s /\ forallb isspace p = true.
Proof.
  induction s as [|c r [p [Hp Hs]]]; simpl.
  - exists []. split; reflexivity.
  - destruct (isspace c) eqn:Hc.
    + exists (c :: p). simpl. rewrite Hc, Hs. split; [f_equal; exact Hp | reflexivity].
    + exists []. split; reflexivity.
Qed.

(** The first character left by [lstrip] is no white space. *)
Lemma lstrip_head (s : pystr) (c : N) (r : pystr) :
  lstrip s = c :: r -> isspace c = false.
Proof.
  induction s as [|d t IH]; simpl; [discriminate|].
  destruct (isspace d) eqn:Hd; [exact IH|].
  intros [= -> _]. exact Hd.
Qed.

Lemma rstrip_prefix (s : pystr) :
  exists q, s = rstrip s ++ q /\ forallb isspace q = true.
Proof.
  destruct (lstrip_suffix (rev s)) as (p & Hp & Hs).
  exists (rev p). split.
  - unfold rstrip. rewrite <- rev_app_distr, <- Hp, rev_involutive. reflexivity.
  - apply forallb_forall. intros c Hc. apply in_rev in Hc.
    exact (proj1 (forallb_forall _ _) Hs c Hc).
Qed.

(** [strip] removes white space at both ends, and only that. *)
Lemma strip_stripped (s : pystr) : stripped_of s (strip s).
Proof.
  destruct (lstrip_suffix s) as (p & Hp & Hps).
  destruct (rstrip_prefix (lstrip s)) as (q & Hq & Hqs).
  fold (strip s) in Hq.
  split; [|split].
  - exists p, q. split; [|split; assumption]. rewrite <- Hq. exact Hp.
  - intros c r Hc. rewrite Hc in Hq. cbn [app] in Hq.
    apply (lstrip_head s c (r ++ q)). exact Hq.
  - intros c r Hc. unfold strip, rstrip in Hc.
    apply (f_equal (@rev N)) in Hc. rewrite rev_involutive, rev_app_distr in Hc.
    cbn [rev app] in Hc. apply (lstrip_head _ _ _ Hc).
Qed.

End StringFacts.

(** ** The two providers *)

Section Providers.
Variable net : Http.transport.

Lemma yandex_request_outcome (self : YandexGPTClient.t) (data : gmap pystr pystr) :
  YandexGPTClient.request net self data =
  match net YandexGPTClient.BASE_URL (YandexGPTClient.headers self)
            (YandexGPTClient.payload self data) with
  | Http.PostRaises d => Raise (HTTPError d)
  | Http.PostResponse st rs b =>
      if ((200 <=? st) && (st <=? 299))%Z then
        match b with
        | Some j => getpath j YandexGPTClient.TEXT_PATH
        | None => Raise ValueError
        end
      else Raise (HTTPError rs)
  end.
Proof.
  unfold YandexGPTClient.request, Http.post.
  destruct (net _ _ _) as [d|st rs b]; [reflexivity|].
  unfold rbind at 1. unfold Http.raise_for_status, Http.is_success. cbn [Http.status_code].
  destruct ((200 <=? st) && (st <=? 299))%Z; [|reflexivity].
  unfold rbind at 1. unfold Http.json. cbn [Http.body Http.reason_phrase].
  destruct b; reflexivity.
Qed.

Lemma hyperbolic_request_outcome (self : HyperbolicClient.t) (prompt : pystr) :
  HyperbolicClient.request net self prompt =
  match net HyperbolicClient.BASE_URL (HyperbolicClient.headers self)
            (HyperbolicClient.payload prompt) with
  | Http.PostRaises d => Raise (HTTPError d)
  | Http.PostResponse st rs b =>
      if ((200 <=? st) && (st <=? 299))%Z then
        match b with
        | Some j => getpath j HyperbolicClient.TEXT_PATH
        | None => Raise ValueError
        end
      else Raise (HTTPError rs)
  end.
Proof.
  unfold HyperbolicClient.request, Http.post.
  destruct (net _ _ _) as [d|st rs b]; [reflexivity|].
  unfold rbind at 1. unfold Http.raise_for_status, Http.is_success. cbn [Http.status_code].
  destruct ((200 <=? st) && (st <=? 299))%Z; [|reflexivity].
  unfold rbind at 1. unfold Http.json. cbn [Http.body Http.reason_phrase].
  destruct b; reflexivity.
Qed.

End Providers.

(** The response shapes of the two backends hold the text at the path. *)
Example yandex_shape (s : pystr) (more : list pyval) :
  getpath
    (PDict [(py "result",
       PDict [(py "alternatives",
         PList (PDict [(py "message",
                  PDict [(py "role", PStr (py "assistant")); (py "text", PStr s)])]
                :: more))])])
    YandexGPTClient.TEXT_PATH = Ok (PStr s).
Proof. reflexivity. Qed.

Example hyperbolic_shape (s : pystr) (more : list pyval) :
  getpath
    (PDict [(py "choices",
       PList (PDict [(py "message",
                PDict [(py "role", PStr (py "assistant")); (py "content", PStr s)])]
              :: more))])
    HyperbolicClient.TEXT_PATH = Ok (PStr s).
Proof. reflexivity. Qed.

Lemma status_range (st : Z) :
  ((200 <=? st) && (st <=? 299))%Z = true <-> (200 <= st <= 299)%Z.
Proof. rewrite andb_true_iff, !Z.leb_le. reflexivity. Qed.

Section ProviderResults.
Variables (net : Http.transport) (yc : YandexGPTClient.t) (hc : HyperbolicClient.t).
Variables (data : gmap pystr pystr) (prompt : pystr).

Lemma generate_roadmap_fails :
  exchange_fails YandexGPTClient.TEXT_PATH (yandex_exchange net yc data) ->
  YandexGPTClient.generate_roadmap net yc data = PNone.
Proof.
  unfold YandexGPTClient.generate_roadmap, yandex_exchange. rewrite yandex_request_outcome.
  set (o := net _ _ _).
  intros H. destruct H as [d|st rs b Hst| st rs | st rs j e He]; try reflexivity.
  - destruct ((200 <=? st) && (st <=? 299))%Z eqn:Hb; [|reflexivity].
    apply status_range in Hb. contradiction.
  - destruct ((200 <=? st) && (st <=? 299))%Z; reflexivity.
  - destruct ((200 <=? st) && (st <=? 299))%Z; [rewrite He|]; reflexivity.
Qed.

Lemma generate_roadmap_yields (v : pyval) :
  exchange_yields YandexGPTClient.TEXT_PATH (yandex_exchange net yc data) v ->
  YandexGPTClient.generate_roadmap net yc data = v.
Proof.
  unfold YandexGPTClient.generate_roadmap, yandex_exchange. rewrite yandex_request_outcome.
  set (o := net _ _ _).
  intros (st & rs & j & -> & Hst & Hv).
  apply status_range in Hst. rewrite Hst, Hv. reflexivity.
Qed.

Lemma generate_analysis_fails :
  exchange_fails HyperbolicClient.TEXT_PATH (hyperbolic_exchange net hc prompt) ->
  HyperbolicClient.generate_analysis net hc prompt = PNone.
Proof.
  unfold HyperbolicClient.generate_analysis, hyperbolic_exchange.
  rewrite hyperbolic_request_outcome. set (o := net _ _ _).
  intros H. destruct H as [d|st rs b Hst| st rs | st rs j e He]; try reflexivity.
  - destruct ((200 <=? st) && (st <=? 299))%Z eqn:Hb; [|reflexivity].
    apply status_range in Hb. contradiction.
  - destruct ((200 <=? st) && (st <=? 299))%Z; reflexivity.
  - destruct ((200 <=? st) && (st <=? 299))%Z; [rewrite He|]; reflexivity.
Qed.

Lemma generate_analysis_yields (v : pyval) :
  exchange_yields HyperbolicClient.TEXT_PATH (hyperbolic_exchange net hc prompt) v ->
  HyperbolicClient.generate_analysis net hc prompt = v.
Proof.
  unfold HyperbolicClient.generate_analysis, hyperbolic_exchange.
  rewrite hyperbolic_request_outcome. set (o := net _ _ _).
  intros (st & rs & j & -> & Hst & Hv).
  apply status_range in Hst. rewrite Hst, Hv. reflexivity.
Qed.

End ProviderResults.

(** C3. Neither [generate_roadmap] nor [generate_analysis] raises (both are
    total functions into Python values): whenever the exchange fails
    (transport error, status outside 2xx, body that is not JSON or lacks
    the path) the result is [None]; whenever a 2xx response holds a value
    at [result.alternatives[0].message.text] (YandexGPT) or at
    [choices[0].message.content] (Hyperbolic), that value is returned
    unchanged. *)
Theorem generate_none_on_failure_verbatim_on_success
    (net : Http.transport) (yc : YandexGPTClient.t) (hc : HyperbolicClient.t)
    (data : gmap pystr pystr) (prompt : pystr) :
  let oy := yandex_exchange net yc data in
  let oh := hyperbolic_exchange net hc prompt in
  (exchange_fails YandexGPTClient.TEXT_PATH oy ->
     YandexGPTClient.generate_roadmap net yc data = PNone)
  /\ (forall v, exchange_yields YandexGPTClient.TEXT_PATH oy v ->
     YandexGPTClient.generate_roadmap net yc data = v)
  /\ (exchange_fails HyperbolicClient.TEXT_PATH oh ->
     HyperbolicClient.generate_analysis net hc prompt = PNone)
  /\ (forall v, exchange_yields HyperbolicClient.TEXT_PATH oh v ->
     HyperbolicClient.generate_analysis net hc prompt = v).
Proof.
  intros oy oh. repeat split.
  - apply generate_roadmap_fails.
  - apply generate_roadmap_yields.
  - apply generate_analysis_fails.
  - apply generate_analysis_yields.
Qed.

Lemma generate_none_on_failure_verbatim_on_success_witness :
  let yc := YandexGPTClient.init (py "key") (py "folder") in
  let hc := HyperbolicClient.init (py "key") in
  YandexGPTClient.generate_roadmap net_yandex_only yc ∅ = PStr (py "  Step 1 ")
  /\ HyperbolicClient.generate_analysis net_yandex_only hc (py "prompt") = PNone
  /\ YandexGPTClient.generate_roadmap net_hyperbolic_only yc ∅ = PNone
  /\ HyperbolicClient.generate_analysis net_hyperbolic_only hc (py "prompt")
     = PStr (py " Learn SQL ").
Proof.
  intros yc hc.
  destruct (generate_none_on_failure_verbatim_on_success net_yandex_only yc hc ∅
              (py "prompt")) as (_ & Hy & Hh & _).
  destruct (generate_none_on_failure_verbatim_on_success net_hyperbolic_only yc hc ∅
              (py "prompt")) as (Hy' & _ & _ & Hh').
  split; [|split; [|split]].
  - apply Hy. eexists 200%Z, (py "OK"), _. split; [reflexivity|]. split; [lia|reflexivity].
  - apply Hh. apply fails_transport.
  - apply Hy'. apply fails_status. lia.
  - apply Hh'. eexists 200%Z, (py "OK"), _. split; [reflexivity|]. split; [lia|reflexivity].
Defined.

(** ** The merged report *)

Section Report.
Import RoadmapGeneratorBot.

Lemma safe_optional (o : option pystr) (fallback : pystr) :
  safe (of_optional o) fallback = Ok (section_body o fallback).
Proof.
  destruct o as [s|]; [|reflexivity].
  unfold safe, section_body. cbn [of_optional truthy].
  destruct (decide (s = [])) as [->|Hs]; [reflexivity|].
  rewrite bool_decide_eq_false_2 by exact Hs. reflexivity.
Qed.

Lemma format_optional (y h : option pystr) :
  _format_responses (of_optional y) (of_optional h) =
  Ok (report (section_body y YANDEX_FALLBACK) (section_body h HYPERBOLIC_FALLBACK)).
Proof.
  unfold _format_responses, report. rewrite !safe_optional. cbn [rbind]. reflexivity.
Qed.

Lemma fallbacks_not_empty : YANDEX_FALLBACK <> [] /\ HYPERBOLIC_FALLBACK <> [].
Proof. split; discriminate. Qed.

(** A result that is no string at all, though not falsy, breaks
    [text.strip()]. *)
Example format_non_string :
  _format_responses (PNum (5 # 1)) (PStr (py "x")) = Raise AttributeError.
Proof. reflexivity. Qed.

End Report.

(** C10. For provider results of type [Optional[str]] the report is the two
    headers with, per section, the stripped text when the result is a
    non-empty string and the fallback when it is [None] or the empty
    string; a non-empty result made of white space only gives an empty
    body, which is not the fallback. *)
Theorem section_body_strip_or_fallback (y h : option pystr) (blank : pystr) :
  blank <> [] -> forallb isspace blank = true ->
  RoadmapGeneratorBot._format_responses (of_optional y) (of_optional h) =
    Ok (report (section_body y RoadmapGeneratorBot.YANDEX_FALLBACK)
               (section_body h RoadmapGeneratorBot.HYPERBOLIC_FALLBACK))
  /\ (forall s fb, s <> [] -> section_body (Some s) fb = strip s)
  /\ (forall fb, section_body None fb = fb /\ section_body (Some []) fb = fb)
  /\ RoadmapGeneratorBot._format_responses (PStr blank) (of_optional h) =
       Ok (report [] (section_body h RoadmapGeneratorBot.HYPERBOLIC_FALLBACK))
  /\ RoadmapGeneratorBot._format_responses (of_optional y) (PStr blank) =
       Ok (report (section_body y RoadmapGeneratorBot.YANDEX_FALLBACK) [])
  /\ [] <> RoadmapGeneratorBot.YANDEX_FALLBACK
  /\ [] <> RoadmapGeneratorBot.HYPERBOLIC_FALLBACK
  /\ (forall s, stripped_of s (strip s)).
Proof.
  intros Hne Hblank.
  assert (Hb : forall fb, section_body (Some blank) fb = []).
  { intros fb. unfold section_body. rewrite decide_False by exact Hne.
    apply strip_blank, Hblank. }
  split; [apply format_optional|].
  split.
  { intros s fb Hs. unfold section_body. rewrite decide_False by exact Hs. reflexivity. }
  split; [intros fb; split; reflexivity|].
  split.
  { change (PStr blank) with (of_optional (Some blank)). rewrite format_optional, Hb. reflexivity. }
  split.
  { change (PStr blank) with (of_optional (Some blank)). rewrite format_optional, Hb. reflexivity. }
  split; [discriminate|]. split; [discriminate|]. exact strip_stripped.
Qed.

Lemma section_body_strip_or_fallback_witness :
  RoadmapGeneratorBot._format_responses (PStr (py "  ")) (PStr (py " Learn SQL ")) =
    Ok (report [] (py "Learn SQL")).
Proof.
  destruct (section_body_strip_or_fallback None (Some (py " Learn SQL ")) (py "  "))
    as (_ & _ & _ & H & _).
  - discriminate.
  - reflexivity.
  - exact H.
Defined.

(** ** Aggregation of the two provider results *)

Section Aggregation.
Import RoadmapGeneratorBot.
Variables (net : Http.transport) (self : RoadmapGeneratorBot.t).
Variable user_data : gmap pystr pystr.

Lemma yandex_no_text :
  no_text YandexGPTClient.TEXT_PATH (yandex_outcome net self user_data) ->
  exists o, YandexGPTClient.generate_roadmap net (yandex_client self) user_data = of_optional o
            /\ forall fb, section_body o fb = fb.
Proof.
  intros [H|[H|H]].
  - exists None. split; [apply generate_roadmap_fails, H | reflexivity].
  - exists None. split; [apply generate_roadmap_yields, H | reflexivity].
  - exists (Some []). split; [apply generate_roadmap_yields, H | reflexivity].
Qed.

Lemma hyperbolic_no_text :
  no_text HyperbolicClient.TEXT_PATH (hyperbolic_outcome net self user_data) ->
  exists o, HyperbolicClient.generate_analysis net (hyperbolic_client self)
              (ANALYSIS_PREFIX ++ YandexGPTClient._build_prompt user_data) = of_optional o
            /\ forall fb, section_body o fb = fb.
Proof.
  intros [H|[H|H]].
  - exists None. split; [apply generate_analysis_fails, H | reflexivity].
  - exists None. split; [apply generate_analysis_yields, H | reflexivity].
  - exists (Some []). split; [apply generate_analysis_yields, H | reflexivity].
Qed.

Lemma yandex_real_text (a : pystr) :
  real_text YandexGPTClient.TEXT_PATH (yandex_outcome net self user_data) a ->
  YandexGPTClient.generate_roadmap net (yandex_client self) user_data = of_optional (Some a)
  /\ forall fb, section_body (Some a) fb = strip a.
Proof.
  intros [H Ha]. split; [apply generate_roadmap_yields, H|].
  intros fb. unfold section_body. rewrite decide_False by exact Ha. reflexivity.
Qed.

Lemma hyperbolic_real_text (b : pystr) :
  real_text HyperbolicClient.TEXT_PATH (hyperbolic_outcome net self user_data) b ->
  HyperbolicClient.generate_analysis net (hyperbolic_client self)
    (ANALYSIS_PREFIX ++ YandexGPTClient._build_prompt user_data) = of_optional (Some b)
  /\ forall fb, section_body (Some b) fb = strip b.
Proof.
  intros [H Hb]. split; [apply generate_analysis_yields, H|].
  intros fb. unfold section_body. rewrite decide_False by exact Hb. reflexivity.
Qed.

End Aggregation.

(** C2. Merging the two results: a provider that failed (whatever the
    error) or returned no text gets its fixed fallback string as section
    body, a provider that returned text gets its text (stripped).  Both
    succeed: no fallback.  Exactly one fails: the fallback in its section,
    the other provider's text in the other.  Both fail: the two fallbacks,
    and formatting returns normally.  The report of a failed exchange does
    not depend on the error. *)
Theorem fallback_per_failed_provider
    (net : Http.transport) (self : RoadmapGeneratorBot.t) (user_data : gmap pystr pystr) :
  let oy := yandex_outcome net self user_data in
  let oh := hyperbolic_outcome net self user_data in
  let YF := RoadmapGeneratorBot.YANDEX_FALLBACK in
  let HF := RoadmapGeneratorBot.HYPERBOLIC_FALLBACK in
  (forall a b, real_text YandexGPTClient.TEXT_PATH oy a ->
               real_text HyperbolicClient.TEXT_PATH oh b ->
     aggregated net self user_data = Ok (report (strip a) (strip b)))
  /\ (forall b, no_text YandexGPTClient.TEXT_PATH oy ->
                real_text HyperbolicClient.TEXT_PATH oh b ->
     aggregated net self user_data = Ok (report YF (strip b)))
  /\ (forall a, real_text YandexGPTClient.TEXT_PATH oy a ->
                no_text HyperbolicClient.TEXT_PATH oh ->
     aggregated net self user_data = Ok (report (strip a) HF))
  /\ (no_text YandexGPTClient.TEXT_PATH oy ->
      no_text HyperbolicClient.TEXT_PATH oh ->
     aggregated net self user_data = Ok (report YF HF)).
Proof.
  intros oy oh YF HF. unfold aggregated. repeat split.
  - intros a b Ha Hb.
    destruct (yandex_real_text net self user_data a Ha) as [-> Hya].
    destruct (hyperbolic_real_text net self user_data b Hb) as [-> Hhb].
    rewrite format_optional, Hya, Hhb. reflexivity.
  - intros b Ha Hb.
    destruct (yandex_no_text net self user_data Ha) as (o & -> & Hya).
    destruct (hyperbolic_real_text net self user_data b Hb) as [-> Hhb].
    rewrite format_optional, Hya, Hhb. reflexivity.
  - intros a Ha Hb.
    destruct (yandex_real_text net self user_data a Ha) as [-> Hya].
    destruct (hyperbolic_no_text net self user_data Hb) as (o & -> & Hhb).
    rewrite format_optional, Hya, Hhb. reflexivity.
  - intros Ha Hb.
    destruct (yandex_no_text net self user_data Ha) as (o & -> & Hya).
    destruct (hyperbolic_no_text net self user_data Hb) as (o' & -> & Hhb).
    rewrite format_optional, Hya, Hhb. reflexivity.
Qed.

Lemma fallback_per_failed_provider_witness :
  let YF := RoadmapGeneratorBot.YANDEX_FALLBACK in
  let HF := RoadmapGeneratorBot.HYPERBOLIC_FALLBACK in
  aggregated net_both bot0 ∅ = Ok (report (py "Step 1") (py "Learn SQL"))
  /\ aggregated net_hyperbolic_only bot0 ∅ = Ok (report YF (py "Learn SQL"))
  /\ aggregated net_yandex_only bot0 ∅ = Ok (report (py "Step 1") HF)
  /\ aggregated net_down bot0 ∅ = Ok (report YF HF).
Proof.
  intros YF HF.
  assert (Hy : forall net : Http.transport,
            net YandexGPTClient.BASE_URL = net_yandex_only YandexGPTClient.BASE_URL ->
            real_text YandexGPTClient.TEXT_PATH (yandex_outcome net bot0 ∅) (py "  Step 1 ")).
  { intros net Hnet. split; [|discriminate].
    unfold yandex_outcome, yandex_exchange. rewrite Hnet.
    eexists 200%Z, (py "OK"), _. split; [reflexivity|]. split; [lia|reflexivity]. }
  assert (Hh : forall net : Http.transport,
            net HyperbolicClient.BASE_URL = net_hyperbolic_only HyperbolicClient.BASE_URL ->
            real_text HyperbolicClient.TEXT_PATH (hyperbolic_outcome net bot0 ∅)
              (py " Learn SQL ")).
  { intros net Hnet. split; [|discriminate].
    unfold hyperbolic_outcome, hyperbolic_exchange. rewrite Hnet.
    eexists 200%Z, (py "OK"), _. split; [reflexivity|]. split; [lia|reflexivity]. }
  split; [|split; [|split]].
  - destruct (fallback_per_failed_provider net_both bot0 ∅) as (H & _).
    apply (H (py "  Step 1 ") (py " Learn SQL ")); [apply Hy|apply Hh]; reflexivity.
  - destruct (fallback_per_failed_provider net_hyperbolic_only bot0 ∅) as (_ & H & _).
    apply (H (py " Learn SQL ")); [|apply Hh; reflexivity].
    left. apply fails_status. lia.
  - destruct (fallback_per_failed_provider net_yandex_only bot0 ∅) as (_ & _ & H & _).
    apply (H (py "  Step 1 ")); [apply Hy; reflexivity|].
    left. apply fails_transport.
  - destruct (fallback_per_failed_provider net_down bot0 ∅) as (_ & _ & _ & H).
    apply H; left; apply fails_transport.
Defined.

(** ** The dialogue *)

Section FormFacts.
Import RoadmapGeneratorBot.

Lemma split_state_name (f : Form.t) :
  split COLON (Form.state f) !! 1%nat = Some (Form.name f).
Proof. destruct f; vm_compute; reflexivity. Qed.

Lemma questions_lookup (f : Form.t) : _QUESTIONS !! Form.name f = Some (question f).
Proof. destruct f; vm_compute; reflexivity. Qed.

Lemma next_state_name_next (f : Form.t) :
  next_state_name (Form.name f) = Form.name <$> next f.
Proof. destruct f; vm_compute; reflexivity. Qed.

Lemma getattr_name (f : Form.t) : Form.getattr (Form.name f) = Ok f.
Proof. destruct f; vm_compute; reflexivity. Qed.

Lemma name_not_empty (f : Form.t) : Form.name f <> [].
Proof. destruct f; discriminate. Qed.

Lemma state_not_empty (f : Form.t) : Form.state f <> [].
Proof. destruct f; discriminate. Qed.

Lemma name_inj (f g : Form.t) : Form.name f = Form.name g -> f = g.
Proof. destruct f, g; intros H; try reflexivity; vm_compute in H; discriminate. Qed.

Lemma state_order_names : _STATE_ORDER = Form.name <$> Form.all.
Proof. reflexivity. Qed.

(** The position of a field in the order table. *)
Lemma index_name (f : Form.t) :
  exists i, index (Form.name f) _STATE_ORDER = Some i
            /\ Form.all !! i = Some f
            /\ next f = Form.all !! S i.
Proof.
  destruct f;
    [exists 0%nat|exists 1%nat|exists 2%nat|exists 3%nat|exists 4%nat];
    vm_compute; auto.
Qed.

End FormFacts.

Section HandlerFacts.
Import Fsm RoadmapGeneratorBot.
Variables (E : Env) (self : RoadmapGeneratorBot.t).

Lemma ask_question_run (f : Form.t) (c : Ctx) :
  _ask_question E f c = answer E (question f) None (moved f c).
Proof.
  unfold _ask_question, bind, set, lift.
  rewrite split_state_name, questions_lookup. reflexivity.
Qed.

Lemma start_command_run (c : Ctx) :
  start_command E c =
  match answer E WELCOME None c with
  | (Ok _, c') => answer E (question Form.profession) None (moved Form.profession c')
  | (Raise e, c') => (Raise e, c')
  end.
Proof.
  unfold start_command, bind.
  destruct (answer E WELCOME None c) as [[[]|e] c']; [apply ask_question_run|reflexivity].
Qed.

Lemma process_answer_idle (txt : pystr) (c : Ctx) :
  state (slot c) = None -> process_answer E self txt c = (Ok tt, c).
Proof. intros H. unfold process_answer, bind, get_state. rewrite H. reflexivity. Qed.

Lemma process_answer_active (txt : pystr) (c : Ctx) (f : Form.t) :
  state (slot c) = Some (Form.state f) ->
  process_answer E self txt c =
  match next f with
  | Some g => _ask_question E g (stored (Form.name f) (strip txt) c)
  | None => _generate_and_send_roadmap E self (stored (Form.name f) (strip txt) c)
  end.
Proof.
  intros H. unfold process_answer, bind at 1, get_state. rewrite H.
  rewrite bool_decide_eq_false_2 by apply state_not_empty.
  unfold bind at 1, lift at 1. rewrite split_state_name.
  unfold bind at 1, proxy_setitem. fold (stored (Form.name f) (strip txt) c).
  rewrite next_state_name_next.
  destruct (next f) as [g|]; cbn [fmap option_fmap option_map]; [|reflexivity].
  rewrite bool_decide_eq_false_2 by apply name_not_empty.
  unfold bind at 1, lift at 1. rewrite getattr_name. reflexivity.
Qed.

End HandlerFacts.

Section RoadmapFacts.
Import Fsm RoadmapGeneratorBot.
Variables (E : Env) (self : RoadmapGeneratorBot.t).

Lemma answer_run (txt : pystr) (pm : option pystr) (c : Ctx) :
  answer E txt pm c =
  match tg_send E (outbox c) (mkOut txt pm) with
  | None => (Ok tt, delivered (mkOut txt pm) c)
  | Some d => (Raise (TelegramAPIError d), c)
  end.
Proof. reflexivity. Qed.

Lemma answer_slot (txt : pystr) (pm : option pystr) (c : Ctx) :
  slot (snd (answer E txt pm c)) = slot c.
Proof. rewrite answer_run. destruct (tg_send _ _ _); reflexivity. Qed.

Lemma generate_and_send_run (c : Ctx) :
  generate_and_send E self c =
  match aggregated (net E) self (data (slot c)) with
  | Ok r => answer E r (Some (py "Markdown")) c
  | Raise e => (Raise e, c)
  end.
Proof.
  unfold generate_and_send, bind at 1, get_data.
  fold (aggregated (net E) self (data (slot c))).
  unfold bind, lift. destruct (aggregated _ _ _); reflexivity.
Qed.

Lemma generate_and_send_slot (c : Ctx) :
  slot (snd (generate_and_send E self c)) = slot c.
Proof.
  rewrite generate_and_send_run.
  destruct (aggregated _ _ _); [apply answer_slot|reflexivity].
Qed.

(** When the [try] body raises, nothing has been delivered. *)
Lemma generate_and_send_raise (c c' : Ctx) (e : exn) :
  generate_and_send E self c = (Raise e, c') -> c' = c.
Proof.
  rewrite generate_and_send_run.
  destruct (aggregated _ _ _); [rewrite answer_run; destruct (tg_send _ _ _)|];
    intros [= ]; congruence.
Qed.

Lemma cleanup_run (c : Ctx) :
  suppress (do _ <- finish; answer E DONE None) c = (Ok tt, cleaned E c).
Proof.
  unfold suppress, bind, finish, cleaned, done_tail. rewrite answer_run.
  cbn [outbox slot]. fold done_notice.
  destruct (tg_send E (outbox c) done_notice); [rewrite app_nil_r|]; reflexivity.
Qed.

Lemma roadmap_run (c : Ctx) :
  tg_send E (outbox c) notice = None ->
  _generate_and_send_roadmap E self c =
  (fst (guarded E self (delivered notice c)),
   cleaned E (snd (guarded E self (delivered notice c)))).
Proof.
  intros H. unfold _generate_and_send_roadmap, bind. rewrite answer_run.
  fold notice. rewrite H. unfold try_finally. fold (guarded E self).
  destruct (guarded E self (delivered notice c)) as [r c2]. rewrite cleanup_run. reflexivity.
Qed.

Lemma roadmap_rejected (c : Ctx) (d : pystr) :
  tg_send E (outbox c) notice = Some d ->
  _generate_and_send_roadmap E self c = (Raise (TelegramAPIError d), c).
Proof.
  intros H. unfold _generate_and_send_roadmap, bind. rewrite answer_run.
  fold notice. rewrite H. reflexivity.
Qed.

Lemma guarded_ok (c c2 : Ctx) :
  generate_and_send E self c = (Ok tt, c2) -> guarded E self c = (Ok tt, c2).
Proof. intros H. unfold guarded, try_except. rewrite H. reflexivity. Qed.

Lemma guarded_raise (c c2 : Ctx) (e : exn) :
  generate_and_send E self c = (Raise e, c2) ->
  guarded E self c = answer E GENERATION_FAILED None c.
Proof.
  intros H. unfold guarded, try_except. rewrite H.
  rewrite (generate_and_send_raise _ _ _ H). reflexivity.
Qed.

Lemma guarded_slot (c : Ctx) : slot (snd (guarded E self c)) = slot c.
Proof.
  unfold guarded, try_except.
  destruct (generate_and_send E self c) as [[[]|e] c2] eqn:H.
  - rewrite <- (generate_and_send_slot c), H. reflexivity.
  - rewrite (generate_and_send_raise _ _ _ H). apply answer_slot.
Qed.

End RoadmapFacts.

(** C7. Once the "analysing" notice is out, the session is cleaned up
    (state and answers reset) whatever happens in the [try]; when the
    [try] raises any exception and Telegram takes the generic failure
    message, the handler returns normally and the user has received the
    notice, the generic failure message and possibly the closing message,
    nothing else; when the [try] succeeds the user has received the report
    instead. *)
Theorem cleanup_after_any_outcome
    (E : Fsm.Env) (self : RoadmapGeneratorBot.t) (c : Fsm.Ctx) :
  Fsm.tg_send E (Fsm.outbox c) notice = None ->
  let c1 := delivered notice c in
  let out := RoadmapGeneratorBot._generate_and_send_roadmap E self c in
  Fsm.slot (snd out) = Fsm.empty
  /\ (forall e c2,
        RoadmapGeneratorBot.generate_and_send E self c1 = (Raise e, c2) ->
        Fsm.tg_send E (Fsm.outbox c1) failure_notice = None ->
        fst out = Ok tt
        /\ Fsm.outbox (snd out) =
             (Fsm.outbox c ++ [notice; failure_notice])
             ++ done_tail E (Fsm.outbox c ++ [notice; failure_notice]))
  /\ (forall c2,
        RoadmapGeneratorBot.generate_and_send E self c1 = (Ok tt, c2) ->
        fst out = Ok tt
        /\ exists r, aggregated (Fsm.net E) self (Fsm.data (Fsm.slot c)) = Ok r
           /\ let sent := Fsm.outbox c ++ [notice; Fsm.mkOut r (Some (py "Markdown"))] in
              Fsm.outbox (snd out) = sent ++ done_tail E sent).
Proof.
  intros Hn c1 out. subst out. rewrite (roadmap_run E self c Hn). fold c1.
  cbn [fst snd]. split; [reflexivity|]. split.
  - intros e c2 He Hf. rewrite (guarded_raise E self _ _ _ He), answer_run.
    fold failure_notice. rewrite Hf. cbn [fst snd]. split; [reflexivity|].
    subst c1. unfold cleaned, delivered. cbn [Fsm.outbox Fsm.slot].
    rewrite <- !app_assoc. cbn [app]. reflexivity.
  - intros c2 Hok. rewrite (guarded_ok E self _ _ Hok). cbn [fst snd].
    split; [reflexivity|].
    rewrite generate_and_send_run in Hok.
    change (Fsm.data (Fsm.slot c1)) with (Fsm.data (Fsm.slot c)) in Hok.
    destruct (aggregated _ _ _) as [r|e]; [|discriminate].
    exists r. split; [reflexivity|].
    rewrite answer_run in Hok.
    destruct (Fsm.tg_send E (Fsm.outbox c1) (Fsm.mkOut r (Some (py "Markdown"))));
      [discriminate|].
    injection Hok as <-. subst c1. unfold cleaned, delivered. cbn [Fsm.outbox Fsm.slot].
    rewrite <- !app_assoc. cbn [app]. reflexivity.
Qed.

Lemma cleanup_after_any_outcome_witness :
  RoadmapGeneratorBot._generate_and_send_roadmap
    (Fsm.mkEnv net_number_text tg_accepts_all) bot0 last_step
  = (Ok tt, Fsm.mkCtx Fsm.empty [notice; failure_notice; done_notice])
  /\ fst (RoadmapGeneratorBot._generate_and_send_roadmap env_ok bot0 last_step) = Ok tt
  /\ Fsm.slot (snd (RoadmapGeneratorBot._generate_and_send_roadmap env_ok bot0 last_step))
     = Fsm.empty.
Proof.
  split.
  - pose proof (cleanup_after_any_outcome (Fsm.mkEnv net_number_text tg_accepts_all)
                  bot0 last_step eq_refl) as (Hs & Hf & _).
    specialize (Hf AttributeError (delivered notice last_step) eq_refl eq_refl) as [Hr Ho].
    destruct (RoadmapGeneratorBot._generate_and_send_roadmap _ _ _) as [r [s o]].
    cbn [fst snd Fsm.slot Fsm.outbox] in *. subst. reflexivity.
  - pose proof (cleanup_after_any_outcome env_ok bot0 last_step eq_refl) as (Hs & _ & Hok).
    split; [|exact Hs].
    refine (proj1 (Hok (snd (RoadmapGeneratorBot.generate_and_send env_ok bot0
                               (delivered notice last_step))) _)).
    vm_compute. reflexivity.
Defined.

(** ** Sessions *)

Section Sessions.
Import Fsm RoadmapGeneratorBot.

Variables (E : Env) (self : RoadmapGeneratorBot.t).

Lemma run_snoc (ops : list op) (o : op) (c : Ctx) :
  run E self (ops ++ [o]) c = step E self (run E self ops c) o.
Proof. unfold run. rewrite fold_left_app. reflexivity. Qed.

Lemma ask_question_slot (f : Form.t) (c : Ctx) :
  slot (snd (_ask_question E f c)) = mkSlot (Some (Form.state f)) (data (slot c)).
Proof. rewrite ask_question_run, answer_slot. reflexivity. Qed.

(** [start_command]: if the welcome text is delivered the state is moved
    to the first field, otherwise nothing happens; the answers stay. *)
Lemma start_command_slot (c : Ctx) :
  slot (snd (start_command E c)) =
  match tg_send E (outbox c) (mkOut WELCOME None) with
  | None => mkSlot (Some (Form.state Form.profession)) (data (slot c))
  | Some _ => slot c
  end.
Proof.
  rewrite start_command_run, answer_run.
  destruct (tg_send E (outbox c) _); [reflexivity|].
  rewrite answer_slot. reflexivity.
Qed.

Lemma roadmap_slot (c : Ctx) :
  slot (snd (_generate_and_send_roadmap E self c)) =
  match tg_send E (outbox c) notice with
  | None => Fsm.empty
  | Some _ => slot c
  end.
Proof.
  destruct (tg_send E (outbox c) notice) as [d|] eqn:H.
  - rewrite (roadmap_rejected E self c d H). reflexivity.
  - rewrite (roadmap_run E self c H). reflexivity.
Qed.

(** The slot an answer leaves behind, for an active session. *)
Lemma process_answer_slot (txt : pystr) (c : Ctx) (f : Form.t) :
  state (slot c) = Some (Form.state f) ->
  slot (snd (process_answer E self txt c)) =
  match next f with
  | Some g => mkSlot (Some (Form.state g)) (<[Form.name f := strip txt]> (data (slot c)))
  | None =>
      match tg_send E (outbox c) notice with
      | None => Fsm.empty
      | Some _ => mkSlot (Some (Form.state f)) (<[Form.name f := strip txt]> (data (slot c)))
      end
  end.
Proof.
  intros H. rewrite (process_answer_active E self txt c f H).
  destruct (next f) as [g|].
  - rewrite ask_question_slot. reflexivity.
  - rewrite roadmap_slot. unfold stored. cbn [outbox slot state data]. rewrite H.
    reflexivity.
Qed.

End Sessions.

Lemma slot_eq (s : Fsm.Slot) (st : option pystr) (d : gmap pystr pystr) :
  Fsm.state s = st -> Fsm.data s = d -> s = Fsm.mkSlot st d.
Proof. destruct s. cbn. intros -> ->. reflexivity. Qed.

(** C8. In an active session at field [f] the answer is stored stripped
    (without its leading and trailing white space, otherwise unchanged)
    under the name of [f], whatever the text (also when nothing is left of
    it after stripping): for a field with a successor the slot afterwards
    holds it, for the last field the roadmap generation runs on the answers
    that hold it.  The state afterwards is the same for any two texts. *)
Theorem answer_stored_stripped
    (E : Fsm.Env) (self : RoadmapGeneratorBot.t) (c : Fsm.Ctx) (f : Form.t)
    (rawText : pystr) :
  Fsm.state (Fsm.slot c) = Some (Form.state f) ->
  let c' := step E self c (SubmitAnswer rawText) in
  (forall g, next f = Some g ->
     Fsm.data (Fsm.slot c') = <[Form.name f := strip rawText]> (Fsm.data (Fsm.slot c))
     /\ Fsm.state (Fsm.slot c') = Some (Form.state g))
  /\ (next f = None ->
     RoadmapGeneratorBot.process_answer E self rawText c =
     RoadmapGeneratorBot._generate_and_send_roadmap E self
       (stored (Form.name f) (strip rawText) c)
     /\ Fsm.data (Fsm.slot (stored (Form.name f) (strip rawText) c)) !! Form.name f
        = Some (strip rawText))
  /\ (forallb isspace rawText = true ->
     Fsm.data (Fsm.slot (stored (Form.name f) (strip rawText) c)) !! Form.name f = Some [])
  /\ (forall other,
     Fsm.state (Fsm.slot (step E self c (SubmitAnswer other))) = Fsm.state (Fsm.slot c'))
  /\ stripped_of rawText (strip rawText).
Proof.
  intros H c'. subst c'. unfold step. cbn [exec].
  split; [|split; [|split; [|split; [|apply strip_stripped]]]].
  - intros g Hg. rewrite (process_answer_slot E self rawText c f H), Hg.
    split; reflexivity.
  - intros Hlast. split.
    + rewrite (process_answer_active E self rawText c f H), Hlast. reflexivity.
    + unfold stored. cbn [Fsm.slot Fsm.data]. apply lookup_insert_eq.
  - intros Hb. unfold stored. cbn [Fsm.slot Fsm.data].
    rewrite (strip_blank _ Hb). apply lookup_insert_eq.
  - intros other.
    rewrite (process_answer_slot E self rawText c f H),
            (process_answer_slot E self other c f H).
    destruct (next f); [reflexivity|].
    destruct (Fsm.tg_send E (Fsm.outbox c) notice); reflexivity.
Qed.

Lemma answer_stored_stripped_witness :
  Fsm.slot (step env_ok bot0 at_goals (SubmitAnswer (py "  lead a team
")))
  = Fsm.mkSlot (Some (Form.state Form.skills))
      (<[py "goals" := py "lead a team"]>
        (<[py "experience" := py "junior"]> (<[py "profession" := py "QA"]> ∅)))
  /\ Fsm.data (Fsm.slot (stored (py "preferences") (strip (py "  ")) last_step))
       !! py "preferences" = Some []
  /\ RoadmapGeneratorBot.process_answer env_ok bot0 (py " remote ") last_step
     = RoadmapGeneratorBot._generate_and_send_roadmap env_ok bot0
         (stored (py "preferences") (py "remote") last_step).
Proof.
  split; [|split].
  - destruct (answer_stored_stripped env_ok bot0 at_goals Form.goals (py "  lead a team
") eq_refl) as (H & _).
    destruct (H Form.skills eq_refl) as [Hd Hs].
    apply slot_eq; [exact Hs|exact Hd].
  - destruct (answer_stored_stripped env_ok bot0 last_step Form.preferences (py "  ")
                eq_refl) as (_ & _ & H & _).
    apply H. reflexivity.
  - destruct (answer_stored_stripped env_ok bot0 last_step Form.preferences (py " remote ")
                eq_refl) as (_ & H & _).
    apply (proj1 (H eq_refl)).
Defined.

Section HappyPath.
Import Fsm RoadmapGeneratorBot.
Variables (E : Env) (self : RoadmapGeneratorBot.t).

(** Telegram takes every message of this conversation. *)
Hypothesis accepts : forall log m, tg_send E log m = None.

Lemma step_start_ok (c : Ctx) :
  step E self c Start =
  mkCtx (mkSlot (Some (Form.state Form.profession)) (data (slot c)))
        (outbox c ++ [mkOut WELCOME None; mkOut (question Form.profession) None]).
Proof.
  unfold step. cbn [exec].
  rewrite start_command_run, answer_run, accepts, answer_run, accepts.
  unfold moved, delivered. cbn [snd slot outbox]. rewrite <- app_assoc. reflexivity.
Qed.

Lemma step_answer_ok (f g : Form.t) (txt : pystr) (c : Ctx) :
  state (slot c) = Some (Form.state f) -> next f = Some g ->
  step E self c (SubmitAnswer txt) =
  mkCtx (mkSlot (Some (Form.state g)) (<[Form.name f := strip txt]> (data (slot c))))
        (outbox c ++ [mkOut (question g) None]).
Proof.
  intros H Hg. unfold step. cbn [exec].
  rewrite (process_answer_active E self txt c f H), Hg.
  rewrite ask_question_run, answer_run, accepts. reflexivity.
Qed.

Lemma step_last_ok (txt : pystr) (c : Ctx) :
  state (slot c) = Some (Form.state Form.preferences) ->
  slot (step E self c (SubmitAnswer txt)) = Fsm.empty.
Proof.
  intros H. unfold step. cbn [exec].
  rewrite (process_answer_slot E self txt c _ H). cbn [next]. rewrite accepts.
  reflexivity.
Qed.

End HappyPath.

(** C1. With Telegram taking every message: from any session, [start] and
    five answers move the state through profession, experience, goals,
    skills, preferences, asking the five questions in this order, and
    leave the session finished (no state, no answers); a further answer
    is a no-op.  The state after an answer is the successor, in the order
    table, of the state before, whatever the text. *)
Theorem start_then_five_answers
    (E : Fsm.Env) (self : RoadmapGeneratorBot.t) (c : Fsm.Ctx)
    (t1 t2 t3 t4 t5 t6 : pystr) :
  (forall log m, Fsm.tg_send E log m = None) ->
  let c0 := step E self c Start in
  let c1 := step E self c0 (SubmitAnswer t1) in
  let c2 := step E self c1 (SubmitAnswer t2) in
  let c3 := step E self c2 (SubmitAnswer t3) in
  let c4 := step E self c3 (SubmitAnswer t4) in
  let c5 := step E self c4 (SubmitAnswer t5) in
  Fsm.state <$> (Fsm.slot <$> [c0; c1; c2; c3; c4]) = (Some ∘ Form.state) <$> Form.all
  /\ Fsm.outbox c4 =
       Fsm.outbox c ++ Fsm.mkOut RoadmapGeneratorBot.WELCOME None
                       :: ((fun f => Fsm.mkOut (question f) None) <$> Form.all)
  /\ Fsm.slot c5 = Fsm.empty
  /\ RoadmapGeneratorBot.process_answer E self t6 c5 = (Ok tt, c5)
  /\ (forall f, exists i,
        index (Form.name f) RoadmapGeneratorBot._STATE_ORDER = Some i
        /\ Form.all !! i = Some f /\ next f = Form.all !! S i)
  /\ (forall f g txt (c' : Fsm.Ctx),
        Fsm.state (Fsm.slot c') = Some (Form.state f) -> next f = Some g ->
        Fsm.state (Fsm.slot (step E self c' (SubmitAnswer txt))) = Some (Form.state g)).
Proof.
  intros Hacc. cbv zeta.
  assert (H5 : Fsm.slot (step E self (step E self (step E self (step E self
                 (step E self (step E self c Start) (SubmitAnswer t1)) (SubmitAnswer t2))
                 (SubmitAnswer t3)) (SubmitAnswer t4)) (SubmitAnswer t5)) = Fsm.empty).
  { apply (step_last_ok E self Hacc).
    rewrite (step_answer_ok E self Hacc Form.skills Form.preferences); [reflexivity| |reflexivity].
    rewrite (step_answer_ok E self Hacc Form.goals Form.skills); [reflexivity| |reflexivity].
    rewrite (step_answer_ok E self Hacc Form.experience Form.goals); [reflexivity| |reflexivity].
    rewrite (step_answer_ok E self Hacc Form.profession Form.experience); [reflexivity| |reflexivity].
    rewrite (step_start_ok E self Hacc). reflexivity. }
  split; [|split; [|split; [exact H5|split; [|split; [exact index_name|]]]]].
  - rewrite (step_start_ok E self Hacc).
    rewrite (step_answer_ok E self Hacc Form.profession Form.experience t1) by reflexivity.
    rewrite (step_answer_ok E self Hacc Form.experience Form.goals t2) by reflexivity.
    rewrite (step_answer_ok E self Hacc Form.goals Form.skills t3) by reflexivity.
    rewrite (step_answer_ok E self Hacc Form.skills Form.preferences t4) by reflexivity.
    reflexivity.
  - rewrite (step_start_ok E self Hacc).
    rewrite (step_answer_ok E self Hacc Form.profession Form.experience t1) by reflexivity.
    rewrite (step_answer_ok E self Hacc Form.experience Form.goals t2) by reflexivity.
    rewrite (step_answer_ok E self Hacc Form.goals Form.skills t3) by reflexivity.
    rewrite (step_answer_ok E self Hacc Form.skills Form.preferences t4) by reflexivity.
    cbn [Fsm.outbox Fsm.slot Fsm.data]. rewrite <- !app_assoc. reflexivity.
  - apply process_answer_idle. rewrite H5. reflexivity.
  - intros f g txt c' Hf Hg.
    unfold step. cbn [exec]. rewrite (process_answer_slot E self txt c' f Hf), Hg.
    reflexivity.
Qed.

Lemma start_then_five_answers_witness :
  let texts := SubmitAnswer <$> [py "QA"; py "junior"; py "lead"; py "sql"; py "remote"] in
  Fsm.slot (run env_ok bot0 (Start :: texts) at_goals) = Fsm.empty
  /\ Fsm.state (Fsm.slot (run env_ok bot0 (Start :: take 4 texts) at_goals))
     = Some (Form.state Form.preferences).
Proof.
  destruct (start_then_five_answers env_ok bot0 at_goals
              (py "QA") (py "junior") (py "lead") (py "sql") (py "remote") (py "more")
              (fun _ _ => eq_refl))
    as (Hs & _ & Hf & _).
  split; [exact Hf|].
  exact (f_equal (fun l => default None (l !! 4%nat)) Hs).
Defined.

(** ** The storage: one slot per conversation *)

Section Storage.
Import Fsm RoadmapGeneratorBot.
Variables (E : Env) (self : RoadmapGeneratorBot.t).

Lemma context_of_handle (chat : address) (o : op) (w : World) :
  context_of (handle E self chat o w) chat = step E self (context_of w chat) o.
Proof.
  unfold handle, context_of at 1. cbn [storage chats].
  rewrite !lookup_insert_eq. cbn [default].
  destruct (step E self (context_of w chat) o). reflexivity.
Qed.

Lemma context_of_handle_other (chat other : address) (o : op) (w : World) :
  other <> chat -> context_of (handle E self chat o w) other = context_of w other.
Proof.
  intros H. unfold handle, context_of. cbn [storage chats].
  rewrite !lookup_insert_ne by congruence. reflexivity.
Qed.

End Storage.

(** C4, as stated, fails: a [/start] in the middle of the form leaves the
    answers given so far in the slot. *)
Lemma start_keeps_answers_counterexample :
  Fsm.slot (context_of (handle env_ok bot0 alice Start two_answers) alice)
    <> Fsm.mkSlot (Some (Form.state Form.profession)) ∅
  /\ Fsm.data (Fsm.slot (context_of (handle env_ok bot0 alice Start two_answers) alice))
       !! py "experience" = Some (py "junior").
Proof.
  assert (H : Fsm.data (Fsm.slot (context_of (handle env_ok bot0 alice Start two_answers) alice))
                !! py "experience" = Some (py "junior")) by (vm_compute; reflexivity).
  split; [|exact H].
  intros Heq. rewrite Heq in H. cbn [Fsm.data] in H. rewrite lookup_empty in H.
  discriminate.
Qed.

(** C4 (amended). For every chat, [start], once the welcome text is
    delivered, sets the state of that chat to the first field, profession,
    and leaves the stored answers as they are (so an empty answer set stays
    empty); the slots of other chats are untouched; when Telegram also
    takes the question, the handler returns normally and the chat has
    received the welcome text followed by the prompt of the first field. *)
Theorem start_sets_first_field
    (E : Fsm.Env) (self : RoadmapGeneratorBot.t) (w : World) (chat : address) :
  let c := context_of w chat in
  let w' := handle E self chat Start w in
  let welcome := Fsm.mkOut RoadmapGeneratorBot.WELCOME None in
  let prompt := Fsm.mkOut (question Form.profession) None in
  Fsm.tg_send E (Fsm.outbox c) welcome = None ->
  Fsm.state (Fsm.slot (context_of w' chat)) = Some (Form.state Form.profession)
  /\ Fsm.data (Fsm.slot (context_of w' chat)) = Fsm.data (Fsm.slot c)
  /\ (Fsm.data (Fsm.slot c) = ∅ ->
      Fsm.slot (context_of w' chat) = Fsm.mkSlot (Some (Form.state Form.profession)) ∅)
  /\ (forall other, other <> chat -> context_of w' other = context_of w other)
  /\ (Fsm.tg_send E (Fsm.outbox c ++ [welcome]) prompt = None ->
      RoadmapGeneratorBot.start_command E c =
        (Ok tt, Fsm.mkCtx (Fsm.mkSlot (Some (Form.state Form.profession))
                             (Fsm.data (Fsm.slot c)))
                          (Fsm.outbox c ++ [welcome; prompt]))).
Proof.
  intros c w' welcome prompt Hw. subst w'. rewrite context_of_handle. fold c.
  unfold step. cbn [exec].
  assert (Hs : Fsm.slot (snd (RoadmapGeneratorBot.start_command E c)) =
               Fsm.mkSlot (Some (Form.state Form.profession)) (Fsm.data (Fsm.slot c))).
  { rewrite start_command_slot. fold welcome. rewrite Hw. reflexivity. }
  rewrite Hs. cbn [Fsm.state Fsm.data].
  split; [reflexivity|]. split; [reflexivity|].
  split; [intros ->; reflexivity|].
  split; [intros other Ho; apply context_of_handle_other, Ho|].
  intros Hp. rewrite start_command_run, answer_run. fold welcome. rewrite Hw.
  rewrite answer_run. unfold moved, delivered. cbn [Fsm.outbox Fsm.slot].
  fold prompt. rewrite Hp. rewrite <- app_assoc. reflexivity.
Qed.

Lemma start_sets_first_field_witness :
  let c := context_of two_answers alice in
  let answers := <[py "experience" := py "junior"]> (<[py "profession" := py "QA"]> ∅) in
  Fsm.slot (context_of (handle env_ok bot0 alice Start two_answers) alice)
  = Fsm.mkSlot (Some (Form.state Form.profession)) answers
  /\ Fsm.slot (context_of (handle env_ok bot0 bob Start two_answers) bob)
     = Fsm.mkSlot (Some (Form.state Form.profession)) ∅
  /\ context_of (handle env_ok bot0 bob Start two_answers) alice = c
  /\ RoadmapGeneratorBot.start_command env_ok c
     = (Ok tt, Fsm.mkCtx (Fsm.mkSlot (Some (Form.state Form.profession)) (Fsm.data (Fsm.slot c)))
                 (Fsm.outbox c ++ [Fsm.mkOut RoadmapGeneratorBot.WELCOME None;
                                   Fsm.mkOut (question Form.profession) None])).
Proof.
  intros c answers.
  destruct (start_sets_first_field env_ok bot0 two_answers alice eq_refl)
    as (Hs & Hd & _ & _ & Hp).
  destruct (start_sets_first_field env_ok bot0 two_answers bob eq_refl)
    as (_ & _ & He & Ho & _).
  split; [|split; [|split]].
  - apply slot_eq; [exact Hs|]. rewrite Hd. vm_compute. reflexivity.
  - apply He. vm_compute. reflexivity.
  - apply Ho. discriminate.
  - apply Hp. reflexivity.
Defined.

(** ** The session invariant *)

Section Invariant.
Import Fsm RoadmapGeneratorBot.

Lemma rank_index (f : Form.t) : Form.all !! rank f = Some f.
Proof. destruct f; reflexivity. Qed.

Lemma rank_next (f g : Form.t) : next f = Some g -> rank g = S (rank f).
Proof. destruct f; intros [= <-]; reflexivity. Qed.

Variables (E : Env) (self : RoadmapGeneratorBot.t).

Lemma inv_fresh : session_inv Fsm.empty.
Proof. reflexivity. Qed.

Lemma inv_keys (s : Slot) :
  session_inv s -> forall k, is_Some (data s !! k) -> exists g, k = Form.name g.
Proof.
  unfold session_inv. destruct (state s) as [st|].
  - intros (f & _ & _ & H). exact H.
  - intros -> k [v Hk]. rewrite lookup_empty in Hk. discriminate.
Qed.

(** Storing the answer to [f] and moving on (or staying) keeps it. *)
Lemma inv_stored (s : Slot) (f h : Form.t) (v : pystr) :
  session_inv s -> state s = Some (Form.state f) ->
  (rank h <= S (rank f))%nat ->
  session_inv (mkSlot (Some (Form.state h)) (<[Form.name f := v]> (data s))).
Proof.
  intros Hinv Hst Hh. pose proof (inv_keys s Hinv) as Hkeys.
  unfold session_inv in Hinv. rewrite Hst in Hinv.
  destruct Hinv as (f' & Hf' & Hbefore & _).
  assert (f' = f) as ->.
  { apply name_inj. unfold Form.state in Hf'. apply app_inv_head in Hf'.
    apply app_inv_head in Hf'. congruence. }
  unfold session_inv. cbn [state data]. exists h. split; [reflexivity|]. split.
  - intros g Hg. rewrite lookup_insert_is_Some.
    destruct (decide (Form.name f = Form.name g)) as [Heq|Hne]; [left; exact Heq|].
    right. split; [exact Hne|]. apply Hbefore.
    assert (rank g <> rank f).
    { intros Hr. apply Hne. f_equal.
      pose proof (rank_index g) as Hg'. rewrite Hr, rank_index in Hg'. congruence. }
    lia.
  - intros k Hk. apply lookup_insert_is_Some in Hk as [<-|[_ Hk]].
    + exists f. reflexivity.
    + apply Hkeys, Hk.
Qed.

Lemma inv_step (c : Ctx) (o : op) :
  session_inv (slot c) -> session_inv (slot (step E self c o)).
Proof.
  intros Hinv. unfold step. destruct o as [|txt]; cbn [exec].
  - rewrite start_command_slot. destruct (tg_send E _ _); [exact Hinv|].
    unfold session_inv. cbn [state data]. exists Form.profession.
    split; [reflexivity|]. split; [intros g Hg; cbn [rank] in Hg; lia|].
    apply inv_keys, Hinv.
  - destruct (state (slot c)) as [st|] eqn:Hst.
    + pose proof Hinv as Hinv'. unfold session_inv in Hinv'. rewrite Hst in Hinv'.
      destruct Hinv' as (f & -> & _).
      rewrite (process_answer_slot E self txt c f Hst).
      destruct (next f) as [g|] eqn:Hg.
      * apply inv_stored; [exact Hinv|exact Hst|]. rewrite (rank_next f g Hg). lia.
      * destruct (tg_send E _ _); [|exact inv_fresh].
        apply inv_stored; [exact Hinv|exact Hst|lia].
    + rewrite (process_answer_idle E self txt c Hst). exact Hinv.
Qed.

Lemma inv_run (ops : list op) (c : Ctx) :
  session_inv (slot c) -> session_inv (slot (run E self ops c)).
Proof.
  revert c. induction ops as [|o ops IH]; intros c Hc; [exact Hc|].
  cbn [run fold_left]. apply IH, inv_step, Hc.
Qed.

(** At the last field, the answers handed to the generation hold all
    five fields. *)
Lemma inv_complete (c : Ctx) (v : pystr) :
  session_inv (slot c) -> state (slot c) = Some (Form.state Form.preferences) ->
  forall g, is_Some (data (slot (stored (Form.name Form.preferences) v c)) !! Form.name g).
Proof.
  intros Hinv Hst g.
  pose proof (inv_stored (slot c) Form.preferences Form.preferences v Hinv Hst) as H.
  unfold stored. cbn [slot data].
  destruct (decide (g = Form.preferences)) as [->|Hne].
  - rewrite lookup_insert_eq. eauto.
  - unfold session_inv in H. cbn [state data rank] in H.
    destruct (H ltac:(lia)) as (f' & Hf' & Hb & _).
    assert (f' = Form.preferences) as ->.
    { apply name_inj. unfold Form.state in Hf'. apply app_inv_head in Hf'.
      apply app_inv_head in Hf'. congruence. }
    apply Hb. destruct g; cbn [rank]; try lia. contradiction.
Qed.

End Invariant.

(** C5, as stated, fails: after a restart the session is at the first
    field and still holds answers; and the session that has completed
    holds no answers at all. *)
Lemma stale_answers_counterexample :
  ~ answered_only_before (Fsm.slot restarted)
  /\ Fsm.slot completed = Fsm.empty.
Proof.
  split; [|vm_compute; reflexivity].
  intros H.
  assert (Hst : Fsm.state (Fsm.slot restarted) = Some (Form.state Form.profession))
    by (vm_compute; reflexivity).
  assert (Hk : is_Some (Fsm.data (Fsm.slot restarted) !! py "profession"))
    by (exists (py "QA"); vm_compute; reflexivity).
  destruct (H Form.profession Hst (py "profession") Hk) as (g & _ & Hg).
  cbn [rank] in Hg. lia.
Qed.

(** C5 (amended). Every session reachable from an unseen chat by [start]
    and answers, in any environment, has one state and satisfies: without
    a state it holds no answers; at a field it holds an answer for every
    field before that field, and answers for fields only.  Every operation
    preserves this.  At the last field the answers handed to the
    generation hold all five fields, and once the notice is delivered the
    session ends with no state and no answers. *)
Theorem session_invariant_kept
    (E : Fsm.Env) (self : RoadmapGeneratorBot.t) (ops : list op) (o : op) (v : pystr) :
  let c := run E self ops fresh in
  session_inv (Fsm.slot c)
  /\ (forall c', session_inv (Fsm.slot c') -> session_inv (Fsm.slot (step E self c' o)))
  /\ (Fsm.state (Fsm.slot c) = Some (Form.state Form.preferences) ->
      (forall g, is_Some (Fsm.data (Fsm.slot (stored (Form.name Form.preferences) v c))
                            !! Form.name g))
      /\ (Fsm.tg_send E (Fsm.outbox c) notice = None ->
          Fsm.slot (step E self c (SubmitAnswer v)) = Fsm.empty)).
Proof.
  intros c.
  assert (Hc : session_inv (Fsm.slot c)) by (apply inv_run, inv_fresh).
  split; [exact Hc|].
  split; [intros c'; apply inv_step|].
  intros Hst. split; [apply inv_complete; assumption|].
  intros Hn. unfold step. cbn [exec].
  rewrite (process_answer_slot E self v c _ Hst). cbn [next]. rewrite Hn. reflexivity.
Qed.

Lemma session_invariant_kept_witness :
  session_inv (Fsm.slot (step env_ok bot0 fresh Start))
  /\ Fsm.slot (step env_ok bot0
       (run env_ok bot0
          (Start :: (SubmitAnswer <$> [py "QA"; py "junior"; py "lead"; py "sql"])) fresh)
       (SubmitAnswer (py "remote"))) = Fsm.empty.
Proof.
  split.
  - destruct (session_invariant_kept env_ok bot0 [] Start []) as (_ & H & _).
    apply H. reflexivity.
  - destruct (session_invariant_kept env_ok bot0
                (Start :: (SubmitAnswer <$> [py "QA"; py "junior"; py "lead"; py "sql"]))
                Start (py "remote")) as (_ & _ & H).
    destruct H as [_ H]; [vm_compute; reflexivity|].
    apply H. reflexivity.
Defined.

(** ** The prompts *)

Section Prompt.
Import RoadmapGeneratorBot.

Lemma build_prompt_template (data : gmap pystr pystr) :
  YandexGPTClient._build_prompt data =
  interleave LEAD_INS (field_text data <$> _STATE_ORDER) CLOSING.
Proof.
  vm_compute. reflexivity.
Qed.

(** Only the texts of the five fields matter. *)
Lemma build_prompt_ext (d1 d2 : gmap pystr pystr) :
  (forall f, field_text d1 (Form.name f) = field_text d2 (Form.name f)) ->
  YandexGPTClient._build_prompt d1 = YandexGPTClient._build_prompt d2.
Proof.
  intros H. rewrite !build_prompt_template, state_order_names.
  cbn [fmap list_fmap Form.all]. rewrite !H. reflexivity.
Qed.

Lemma field_text_insert (d : gmap pystr pystr) (f g : Form.t) (v : pystr) :
  field_text (<[Form.name f := v]> d) (Form.name g) =
  if decide (g = f) then v else field_text d (Form.name g).
Proof.
  unfold field_text. destruct (decide (g = f)) as [->|Hne].
  - rewrite lookup_insert_eq. reflexivity.
  - rewrite lookup_insert_ne; [reflexivity|].
    intros H. apply Hne. symmetry. apply name_inj, H.
Qed.

Lemma field_text_missing (d : gmap pystr pystr) (f : Form.t) :
  d !! Form.name f = None -> field_text d (Form.name f) = py "-".
Proof. intros H. unfold field_text. rewrite H. reflexivity. Qed.

(** A missing field reads as a dash ... *)
Lemma missing_as_dash (d : gmap pystr pystr) (f : Form.t) :
  d !! Form.name f = None ->
  YandexGPTClient._build_prompt d =
  YandexGPTClient._build_prompt (<[Form.name f := py "-"]> d).
Proof.
  intros H. apply build_prompt_ext. intros g. rewrite field_text_insert.
  destruct (decide (g = f)) as [->|_]; [apply field_text_missing, H|reflexivity].
Qed.

(** ... which makes the prompt one character longer than an empty answer
    would. *)
Lemma missing_not_empty (d : gmap pystr pystr) (f : Form.t) :
  d !! Form.name f = None ->
  length (YandexGPTClient._build_prompt d) =
  S (length (YandexGPTClient._build_prompt (<[Form.name f := []]> d))).
Proof.
  intros H. rewrite !build_prompt_template, state_order_names. unfold LEAD_INS.
  cbn [fmap list_fmap Form.all interleave]. rewrite !field_text_insert.
  pose proof (field_text_missing d f H) as Hf.
  destruct f; rewrite Hf;
    repeat (rewrite decide_False by discriminate);
    rewrite decide_True by reflexivity;
    repeat (rewrite decide_False by discriminate);
    rewrite !length_app; change (length (py "-")) with 1%nat; cbn [length]; lia.
Qed.

Lemma prefix_changes_prompt (p : pystr) : ANALYSIS_PREFIX ++ p <> p.
Proof.
  intros H. apply (f_equal length) in H. rewrite length_app in H.
  assert (0 < length ANALYSIS_PREFIX)%nat by (vm_compute; lia). lia.
Qed.

End Prompt.

Section Requests.
Import Fsm RoadmapGeneratorBot.
Variables (net1 net2 : Http.transport) (tg : list OutMsg -> OutMsg -> option pystr).
Variable self : RoadmapGeneratorBot.t.

(** Where the user prompt sits in each request. *)
Lemma yandex_payload_prompt (d : gmap pystr pystr) :
  getpath (YandexGPTClient.payload (yandex_client self) d)
    [KStr (py "messages"); KInt 1; KStr (py "text")]
  = Ok (PStr (YandexGPTClient._build_prompt d)).
Proof. vm_compute. reflexivity. Qed.

Lemma hyperbolic_payload_prompt (p : pystr) :
  getpath (HyperbolicClient.payload p) [KStr (py "messages"); KInt 0; KStr (py "content")]
  = Ok (PStr p).
Proof. vm_compute. reflexivity. Qed.

(** The aggregation sees the network through its two requests only. *)
Lemma aggregated_depends (d : gmap pystr pystr) :
  yandex_outcome net1 self d = yandex_outcome net2 self d ->
  hyperbolic_outcome net1 self d = hyperbolic_outcome net2 self d ->
  aggregated net1 self d = aggregated net2 self d.
Proof.
  unfold yandex_outcome, hyperbolic_outcome, yandex_exchange, hyperbolic_exchange.
  intros Hy Hh.
  unfold aggregated, YandexGPTClient.generate_roadmap, HyperbolicClient.generate_analysis.
  rewrite !yandex_request_outcome, !hyperbolic_request_outcome, Hy, Hh. reflexivity.
Qed.

Lemma roadmap_depends (c : Ctx) :
  yandex_outcome net1 self (data (slot c)) = yandex_outcome net2 self (data (slot c)) ->
  hyperbolic_outcome net1 self (data (slot c))
    = hyperbolic_outcome net2 self (data (slot c)) ->
  _generate_and_send_roadmap (mkEnv net1 tg) self c
  = _generate_and_send_roadmap (mkEnv net2 tg) self c.
Proof.
  intros Hy Hh.
  assert (Hg : forall c1, slot c1 = slot c ->
            generate_and_send (mkEnv net1 tg) self c1
            = generate_and_send (mkEnv net2 tg) self c1).
  { intros c1 Hc1. rewrite !generate_and_send_run. cbn [net]. rewrite Hc1.
    rewrite (aggregated_depends _ Hy Hh). reflexivity. }
  destruct (tg (outbox c) notice) as [d|] eqn:Hn.
  - rewrite !(roadmap_rejected _ self c d) by exact Hn. reflexivity.
  - rewrite !roadmap_run by exact Hn. unfold guarded, try_except.
    rewrite Hg by reflexivity. reflexivity.
Qed.

End Requests.

Section RequestsSent.
Import Fsm RoadmapGeneratorBot.
Variables (E : Env) (self : RoadmapGeneratorBot.t).

Lemma generate_roadmap_result_of (net : Http.transport) (yc : YandexGPTClient.t)
    (d : gmap pystr pystr) :
  YandexGPTClient.generate_roadmap net yc d =
  result_of YandexGPTClient.TEXT_PATH
    (net YandexGPTClient.BASE_URL (YandexGPTClient.headers yc) (YandexGPTClient.payload yc d)).
Proof.
  unfold YandexGPTClient.generate_roadmap. rewrite yandex_request_outcome. unfold result_of.
  destruct (net _ _ _) as [detail|st rs b]; [reflexivity|].
  destruct ((200 <=? st) && (st <=? 299))%Z; [|reflexivity].
  destruct b as [j|]; [|reflexivity].
  destruct (getpath j YandexGPTClient.TEXT_PATH); reflexivity.
Qed.

Lemma generate_analysis_result_of (net : Http.transport) (hc : HyperbolicClient.t)
    (p : pystr) :
  HyperbolicClient.generate_analysis net hc p =
  result_of HyperbolicClient.TEXT_PATH
    (net HyperbolicClient.BASE_URL (HyperbolicClient.headers hc) (HyperbolicClient.payload p)).
Proof.
  unfold HyperbolicClient.generate_analysis. rewrite hyperbolic_request_outcome.
  unfold result_of.
  destruct (net _ _ _) as [detail|st rs b]; [reflexivity|].
  destruct ((200 <=? st) && (st <=? 299))%Z; [|reflexivity].
  destruct b as [j|]; [|reflexivity].
  destruct (getpath j HyperbolicClient.TEXT_PATH); reflexivity.
Qed.

(** The [try] body, in terms of the two requests it makes. *)
Lemma generate_and_send_requests (c : Ctx) :
  generate_and_send E self c =
  match _format_responses
          (result_of YandexGPTClient.TEXT_PATH
             (net E YandexGPTClient.BASE_URL (YandexGPTClient.headers (yandex_client self))
                (YandexGPTClient.payload (yandex_client self) (data (slot c)))))
          (result_of HyperbolicClient.TEXT_PATH
             (net E HyperbolicClient.BASE_URL (HyperbolicClient.headers (hyperbolic_client self))
                (HyperbolicClient.payload
                   (ANALYSIS_PREFIX ++ YandexGPTClient._build_prompt (data (slot c))))))
  with
  | Ok r => answer E r (Some (py "Markdown")) c
  | Raise e => (Raise e, c)
  end.
Proof.
  rewrite generate_and_send_run. unfold aggregated.
  rewrite generate_roadmap_result_of, generate_analysis_result_of. reflexivity.
Qed.

(** What Hyperbolic answers to the wrapped prompt reaches the user. *)
Lemma wrapped_answer_reaches_user (c : Ctx) (b : pystr) :
  (forall log m, tg_send E log m = None) ->
  exchange_fails YandexGPTClient.TEXT_PATH
    (net E YandexGPTClient.BASE_URL (YandexGPTClient.headers (yandex_client self))
       (YandexGPTClient.payload (yandex_client self) (data (slot c)))) ->
  exchange_yields HyperbolicClient.TEXT_PATH
    (net E HyperbolicClient.BASE_URL (HyperbolicClient.headers (hyperbolic_client self))
       (HyperbolicClient.payload
          (ANALYSIS_PREFIX ++ YandexGPTClient._build_prompt (data (slot c))))) (PStr b) ->
  b <> [] ->
  _generate_and_send_roadmap E self c =
  (Ok tt, mkCtx Fsm.empty
            (outbox c ++ [notice;
                          mkOut (report YANDEX_FALLBACK (strip b)) (Some (py "Markdown"));
                          done_notice])).
Proof.
  intros Hacc Hy Hh Hb.
  assert (Hagg : aggregated (net E) self (data (slot c))
                 = Ok (report YANDEX_FALLBACK (strip b))).
  { destruct (yandex_no_text (net E) self (data (slot c)) (or_introl Hy)) as (o & Ho & Hs).
    destruct (hyperbolic_real_text (net E) self (data (slot c)) b (conj Hh Hb)) as [Hg Hs'].
    unfold aggregated. rewrite Ho, Hg, format_optional, Hs, Hs'. reflexivity. }
  rewrite (roadmap_run E self c (Hacc _ _)).
  rewrite (guarded_ok E self (delivered notice c)
             (delivered (mkOut (report YANDEX_FALLBACK (strip b)) (Some (py "Markdown")))
                (delivered notice c))).
  - cbn [fst snd]. unfold cleaned, done_tail. rewrite Hacc.
    unfold delivered. cbn [outbox slot]. rewrite <- !app_assoc. reflexivity.
  - rewrite generate_and_send_run.
    change (data (slot (delivered notice c))) with (data (slot c)).
    rewrite Hagg, answer_run, Hacc. reflexivity.
Qed.

End RequestsSent.

(** C6. The base prompt is the fixed template filled, in the order
    profession, experience, goals, skills, preferences, with the answer of
    each field, or a dash for a field without answer (the same prompt as
    if the answer were a dash, and one character longer than if it were the
    empty string).  The generation makes two requests: YandexGPT is sent
    the base prompt as user text, Hyperbolic the base prompt with the
    recommendation sentence in front, a different string.  The [try] body
    is the formatting of what these two requests return, and nothing else
    of the network matters; what Hyperbolic answers to the wrapped prompt
    ends up in the report the user receives. *)
Theorem base_prompt_and_wrapped_prompt
    (net1 net2 : Http.transport) (tg : list Fsm.OutMsg -> Fsm.OutMsg -> option pystr)
    (self : RoadmapGeneratorBot.t) (d : gmap pystr pystr) (f : Form.t) (c : Fsm.Ctx) :
  let prompt := YandexGPTClient._build_prompt in
  let wrapped := RoadmapGeneratorBot.ANALYSIS_PREFIX ++ prompt d in
  let to_yandex :=
    net1 YandexGPTClient.BASE_URL
      (YandexGPTClient.headers (RoadmapGeneratorBot.yandex_client self))
      (YandexGPTClient.payload (RoadmapGeneratorBot.yandex_client self)
         (Fsm.data (Fsm.slot c))) in
  let to_hyperbolic :=
    net1 HyperbolicClient.BASE_URL
      (HyperbolicClient.headers (RoadmapGeneratorBot.hyperbolic_client self))
      (HyperbolicClient.payload
         (RoadmapGeneratorBot.ANALYSIS_PREFIX ++ prompt (Fsm.data (Fsm.slot c)))) in
  prompt d = interleave LEAD_INS (field_text d <$> RoadmapGeneratorBot._STATE_ORDER) CLOSING
  /\ (d !! Form.name f = None ->
      field_text d (Form.name f) = py "-"
      /\ prompt d = prompt (<[Form.name f := py "-"]> d)
      /\ prompt d <> prompt (<[Form.name f := []]> d))
  /\ getpath (YandexGPTClient.payload (RoadmapGeneratorBot.yandex_client self) d)
       [KStr (py "messages"); KInt 1; KStr (py "text")] = Ok (PStr (prompt d))
  /\ getpath (HyperbolicClient.payload wrapped)
       [KStr (py "messages"); KInt 0; KStr (py "content")] = Ok (PStr wrapped)
  /\ wrapped <> prompt d
  /\ (yandex_outcome net1 self (Fsm.data (Fsm.slot c))
        = yandex_outcome net2 self (Fsm.data (Fsm.slot c)) ->
      hyperbolic_outcome net1 self (Fsm.data (Fsm.slot c))
        = hyperbolic_outcome net2 self (Fsm.data (Fsm.slot c)) ->
      RoadmapGeneratorBot._generate_and_send_roadmap (Fsm.mkEnv net1 tg) self c
      = RoadmapGeneratorBot._generate_and_send_roadmap (Fsm.mkEnv net2 tg) self c)
  /\ RoadmapGeneratorBot.generate_and_send (Fsm.mkEnv net1 tg) self c =
       match RoadmapGeneratorBot._format_responses
               (result_of YandexGPTClient.TEXT_PATH to_yandex)
               (result_of HyperbolicClient.TEXT_PATH to_hyperbolic)
       with
       | Ok r => Fsm.answer (Fsm.mkEnv net1 tg) r (Some (py "Markdown")) c
       | Raise e => (Raise e, c)
       end
  /\ (forall b,
        (forall log m, tg log m = None) ->
        exchange_fails YandexGPTClient.TEXT_PATH to_yandex ->
        exchange_yields HyperbolicClient.TEXT_PATH to_hyperbolic (PStr b) ->
        b <> [] ->
        RoadmapGeneratorBot._generate_and_send_roadmap (Fsm.mkEnv net1 tg) self c =
        (Ok tt,
         Fsm.mkCtx Fsm.empty
           (Fsm.outbox c
            ++ [notice;
                Fsm.mkOut (report RoadmapGeneratorBot.YANDEX_FALLBACK (strip b))
                  (Some (py "Markdown"));
                done_notice]))).
Proof.
  intros prompt wrapped to_yandex to_hyperbolic.
  split; [apply build_prompt_template|].
  split.
  { intros H. split; [apply field_text_missing, H|]. split; [apply missing_as_dash, H|].
    intros Heq. pose proof (missing_not_empty d f H) as Hl. fold prompt in Hl.
    rewrite <- Heq in Hl. lia. }
  split; [apply yandex_payload_prompt|].
  split; [apply hyperbolic_payload_prompt|].
  split; [apply prefix_changes_prompt|].
  split; [apply roadmap_depends|].
  split; [apply generate_and_send_requests|].
  intros b Hacc Hy Hh Hb.
  apply (wrapped_answer_reaches_user (Fsm.mkEnv net1 tg) self c b Hacc Hy Hh Hb).
Qed.

Lemma base_prompt_and_wrapped_prompt_witness :
  let asked := YandexGPTClient._build_prompt (Fsm.data (Fsm.slot last_step)) in
  YandexGPTClient._build_prompt (<[py "profession" := py "QA"]> ∅)
  = YandexGPTClient._build_prompt
      (<[py "experience" := py "-"]> (<[py "profession" := py "QA"]> ∅))
  /\ RoadmapGeneratorBot._generate_and_send_roadmap
       (Fsm.mkEnv net_yandex_only tg_accepts_all) bot0 last_step
     = RoadmapGeneratorBot._generate_and_send_roadmap
         (Fsm.mkEnv net_yandex_only' tg_accepts_all) bot0 last_step
  /\ RoadmapGeneratorBot._generate_and_send_roadmap
       (Fsm.mkEnv (net_wants_prompt (RoadmapGeneratorBot.ANALYSIS_PREFIX ++ asked)
                     (py " Learn SQL ")) tg_accepts_all) bot0 last_step
     = (Ok tt,
        Fsm.mkCtx Fsm.empty
          [notice;
           Fsm.mkOut (report RoadmapGeneratorBot.YANDEX_FALLBACK (py "Learn SQL"))
             (Some (py "Markdown"));
           done_notice])
  /\ RoadmapGeneratorBot._generate_and_send_roadmap
       (Fsm.mkEnv (net_wants_prompt asked (py " Learn SQL ")) tg_accepts_all) bot0 last_step
     = (Ok tt,
        Fsm.mkCtx Fsm.empty
          [notice;
           Fsm.mkOut (report RoadmapGeneratorBot.YANDEX_FALLBACK
                        RoadmapGeneratorBot.HYPERBOLIC_FALLBACK)
             (Some (py "Markdown"));
           done_notice]).
Proof.
  intros asked.
  destruct (base_prompt_and_wrapped_prompt net_yandex_only net_yandex_only'
              tg_accepts_all bot0 (<[py "profession" := py "QA"]> ∅)
              Form.experience last_step) as (_ & Hm & _ & _ & _ & Hd & _).
  destruct (base_prompt_and_wrapped_prompt
              (net_wants_prompt (RoadmapGeneratorBot.ANALYSIS_PREFIX ++ asked)
                 (py " Learn SQL "))
              net_down tg_accepts_all bot0 ∅ Form.experience last_step)
    as (_ & _ & _ & _ & _ & _ & _ & Hb).
  split; [|split; [|split]].
  - destruct Hm as (_ & H & _); [vm_compute; reflexivity|exact H].
  - apply Hd; vm_compute; reflexivity.
  - apply (Hb (py " Learn SQL ")).
    + reflexivity.
    + apply fails_transport.
    + eexists 200%Z, (py "OK"), _. split; [vm_compute; reflexivity|].
      split; [lia|reflexivity].
    + discriminate.
  - vm_compute. reflexivity.
Defined.

(** * Further properties *)

(** ** Configuration *)

Section ConfigFacts.
Variable environ : gmap pystr pystr.

Lemma get_env_var_loaded (name value : pystr) :
  Config._get_env_var environ name = Config.Loaded value
  <-> environ !! name = Some value /\ value <> [].
Proof.
  unfold Config._get_env_var. destruct (environ !! name) as [v|]; [|split; [discriminate|]].
  - destruct (decide (v = [])) as [->|Hv].
    + rewrite bool_decide_eq_true_2 by reflexivity. split; [discriminate|].
      intros [[= <-] H]. contradiction.
    + rewrite bool_decide_eq_false_2 by exact Hv. split.
      * intros [= <-]. split; [reflexivity|exact Hv].
      * intros [[= <-] _]. reflexivity.
  - intros [H _]. discriminate.
Qed.

Lemma get_env_var_provided (name : pystr) :
  provided environ name -> exists value, Config._get_env_var environ name = Config.Loaded value.
Proof. intros (v & Hv & Hne). exists v. apply get_env_var_loaded. split; assumption. Qed.

Lemma get_env_var_missing (name : pystr) :
  ~ provided environ name ->
  Config._get_env_var environ name = Config.Exit 1 (Config.MISSING ++ name).
Proof.
  intros H. unfold Config._get_env_var. destruct (environ !! name) as [v|] eqn:Hv; [|reflexivity].
  destruct (decide (v = [])) as [->|Hne].
  - rewrite bool_decide_eq_true_2 by reflexivity. reflexivity.
  - exfalso. apply H. exists v. split; [exact Hv|exact Hne].
Qed.

End ConfigFacts.

(** X1. [Config()] returns a configuration exactly when the four
    variables are set to non-empty values, and then its fields are these
    values. *)
Theorem config_loaded_iff (environ : gmap pystr pystr) (cfg : Config.t) :
  Config.init environ = Config.Loaded cfg
  <-> (environ !! py "TELEGRAM_API_TOKEN" = Some (Config.API_TOKEN cfg)
       /\ Config.API_TOKEN cfg <> [])
      /\ (environ !! py "YANDEX_GPT_API_KEY" = Some (Config.YANDEX_GPT_API_KEY cfg)
          /\ Config.YANDEX_GPT_API_KEY cfg <> [])
      /\ (environ !! py "YANDEX_FOLDER_ID" = Some (Config.YANDEX_FOLDER_ID cfg)
          /\ Config.YANDEX_FOLDER_ID cfg <> [])
      /\ (environ !! py "HYPERBOLIC_API_KEY" = Some (Config.HYPERBOLIC_API_KEY cfg)
          /\ Config.HYPERBOLIC_API_KEY cfg <> []).
Proof.
  rewrite <- !get_env_var_loaded. unfold Config.init.
  destruct cfg as [a b c d]. cbn [Config.API_TOKEN Config.YANDEX_GPT_API_KEY
    Config.YANDEX_FOLDER_ID Config.HYPERBOLIC_API_KEY].
  destruct (Config._get_env_var environ (py "TELEGRAM_API_TOKEN")) as [a'|];
    cbn [Config.sbind]; [|split; [discriminate|intros [H _]; discriminate]].
  destruct (Config._get_env_var environ (py "YANDEX_GPT_API_KEY")) as [b'|];
    cbn [Config.sbind]; [|split; [discriminate|intros (_ & H & _); discriminate]].
  destruct (Config._get_env_var environ (py "YANDEX_FOLDER_ID")) as [c'|];
    cbn [Config.sbind]; [|split; [discriminate|intros (_ & _ & H & _); discriminate]].
  destruct (Config._get_env_var environ (py "HYPERBOLIC_API_KEY")) as [d'|];
    cbn [Config.sbind]; [|split; [discriminate|intros (_ & _ & _ & H); discriminate]].
  split.
  - intros [= -> -> -> ->]. repeat split.
  - intros ([= ->] & [= ->] & [= ->] & [= ->]). reflexivity.
Qed.

(** X2. When a variable is missing (unset or empty), [Config()] exits
    with status 1 and the error it logs names the first missing variable in
    the order token, YandexGPT key, folder id, Hyperbolic key. *)
Theorem config_exit_names_first_missing
    (environ : gmap pystr pystr) (i : nat) (name : pystr) :
  REQUIRED !! i = Some name ->
  ~ provided environ name ->
  (forall j earlier, (j < i)%nat -> REQUIRED !! j = Some earlier -> provided environ earlier) ->
  Config.init environ = Config.Exit 1 (Config.MISSING ++ name).
Proof.
  intros Hi Hmiss Hearlier. unfold Config.init.
  destruct i as [|[|[|[|i]]]].
  - change (Some (py "TELEGRAM_API_TOKEN") = Some name) in Hi. injection Hi as <-.
    rewrite (get_env_var_missing _ _ Hmiss). reflexivity.
  - change (Some (py "YANDEX_GPT_API_KEY") = Some name) in Hi. injection Hi as <-.
    destruct (get_env_var_provided environ _ (Hearlier 0%nat _ ltac:(lia) eq_refl)) as [a Ha].
    rewrite Ha. cbn [Config.sbind]. rewrite (get_env_var_missing _ _ Hmiss). reflexivity.
  - change (Some (py "YANDEX_FOLDER_ID") = Some name) in Hi. injection Hi as <-.
    destruct (get_env_var_provided environ _ (Hearlier 0%nat _ ltac:(lia) eq_refl)) as [a Ha].
    destruct (get_env_var_provided environ _ (Hearlier 1%nat _ ltac:(lia) eq_refl)) as [b Hb].
    rewrite Ha. cbn [Config.sbind]. rewrite Hb. cbn [Config.sbind].
    rewrite (get_env_var_missing _ _ Hmiss). reflexivity.
  - change (Some (py "HYPERBOLIC_API_KEY") = Some name) in Hi. injection Hi as <-.
    destruct (get_env_var_provided environ _ (Hearlier 0%nat _ ltac:(lia) eq_refl)) as [a Ha].
    destruct (get_env_var_provided environ _ (Hearlier 1%nat _ ltac:(lia) eq_refl)) as [b Hb].
    destruct (get_env_var_provided environ _ (Hearlier 2%nat _ ltac:(lia) eq_refl)) as [c Hc].
    rewrite Ha. cbn [Config.sbind]. rewrite Hb. cbn [Config.sbind]. rewrite Hc.
    cbn [Config.sbind]. rewrite (get_env_var_missing _ _ Hmiss). reflexivity.
  - discriminate.
Qed.

Lemma config_loaded_iff_witness :
  Config.init environ_ok = Config.Loaded (Config.mk (py "t0k") (py "ykey") (py "folder") (py "hkey")).
Proof.
  apply (proj2 (config_loaded_iff environ_ok
                  (Config.mk (py "t0k") (py "ykey") (py "folder") (py "hkey")))).
  repeat split; try discriminate; vm_compute; reflexivity.
Defined.

Lemma config_exit_names_first_missing_witness :
  Config.init environ_no_folder = Config.Exit 1 (Config.MISSING ++ py "YANDEX_FOLDER_ID").
Proof.
  apply (config_exit_names_first_missing environ_no_folder 2 (py "YANDEX_FOLDER_ID")).
  - reflexivity.
  - intros (v & Hv & Hne). vm_compute in Hv. injection Hv as <-. apply Hne. reflexivity.
  - intros [|[|j]] earlier Hj He; [| |lia].
    + injection He as <-. exists (py "t0k"). split; [vm_compute; reflexivity|discriminate].
    + injection He as <-. exists (py "ykey"). split; [vm_compute; reflexivity|discriminate].
Defined.

(** X3. When the configuration is loaded, the entry point builds the
    Telegram bot first: if aiogram rejects the token, the constructor
    raises and no client is built.  When the bot is built, its clients use
    the YandexGPT key and folder id and the Hyperbolic key of the
    environment, and nothing else of it: two environments with which the
    bot is built and that agree on these three variables give the same
    clients. *)
Theorem main_clients_from_environment
    (Bot : pystr -> App.constructed unit) (env1 env2 : gmap pystr pystr) :
  (forall cfg message,
      Config.init env1 = Config.Loaded cfg ->
      Bot (Config.API_TOKEN cfg) = App.Raises message ->
      App.main Bot env1 = Config.Loaded (App.Raises message))
  /\ (forall bot1,
        App.main Bot env1 = Config.Loaded (App.Constructed bot1) ->
        exists token ykey folder hkey,
          env1 !! py "TELEGRAM_API_TOKEN" = Some token
          /\ Bot token = App.Constructed tt
          /\ env1 !! py "YANDEX_GPT_API_KEY" = Some ykey
          /\ env1 !! py "YANDEX_FOLDER_ID" = Some folder
          /\ env1 !! py "HYPERBOLIC_API_KEY" = Some hkey
          /\ YandexGPTClient.headers (RoadmapGeneratorBot.yandex_client bot1)
             = [(py "Authorization", py "Api-Key " ++ ykey);
                (py "Content-Type", py "application/json")]
          /\ YandexGPTClient.model_uri (RoadmapGeneratorBot.yandex_client bot1)
             = py "gpt://" ++ folder ++ py "/yandexgpt-lite"
          /\ HyperbolicClient.headers (RoadmapGeneratorBot.hyperbolic_client bot1)
             = [(py "Content-Type", py "application/json");
                (py "Authorization", py "Bearer " ++ hkey)])
  /\ (forall bot1 bot2,
        App.main Bot env1 = Config.Loaded (App.Constructed bot1) ->
        App.main Bot env2 = Config.Loaded (App.Constructed bot2) ->
        env1 !! py "YANDEX_GPT_API_KEY" = env2 !! py "YANDEX_GPT_API_KEY" ->
        env1 !! py "YANDEX_FOLDER_ID" = env2 !! py "YANDEX_FOLDER_ID" ->
        env1 !! py "HYPERBOLIC_API_KEY" = env2 !! py "HYPERBOLIC_API_KEY" ->
        bot1 = bot2).
Proof.
  split; [|split].
  - intros cfg message Hc Hb. unfold App.main, App.bot_of_config.
    rewrite Hc. cbn [Config.sbind]. rewrite Hb. reflexivity.
  - intros bot1 H1. unfold App.main in H1.
    destruct (Config.init env1) as [cfg1|] eqn:Hc1; [|discriminate].
    cbn [Config.sbind] in H1. unfold App.bot_of_config in H1.
    destruct (Bot (Config.API_TOKEN cfg1)) as [[]|] eqn:Hb; [|discriminate].
    injection H1 as <-.
    apply config_loaded_iff in Hc1 as ([Ht1 _] & [Hy1 _] & [Hf1 _] & [Hh1 _]).
    exists (Config.API_TOKEN cfg1), (Config.YANDEX_GPT_API_KEY cfg1),
      (Config.YANDEX_FOLDER_ID cfg1), (Config.HYPERBOLIC_API_KEY cfg1).
    repeat split; assumption.
  - intros bot1 bot2 H1 H2 Hy Hf Hh. unfold App.main in H1, H2.
    destruct (Config.init env1) as [cfg1|] eqn:Hc1; [|discriminate].
    destruct (Config.init env2) as [cfg2|] eqn:Hc2; [|discriminate].
    cbn [Config.sbind] in H1, H2. unfold App.bot_of_config in H1, H2.
    destruct (Bot (Config.API_TOKEN cfg1)) as [[]|]; [|discriminate].
    destruct (Bot (Config.API_TOKEN cfg2)) as [[]|]; [|discriminate].
    injection H1 as <-. injection H2 as <-.
    apply config_loaded_iff in Hc1 as (_ & [Hy1 _] & [Hf1 _] & [Hh1 _]).
    apply config_loaded_iff in Hc2 as (_ & [Hy2 _] & [Hf2 _] & [Hh2 _]).
    rewrite Hy1, Hy2 in Hy. rewrite Hf1, Hf2 in Hf. rewrite Hh1, Hh2 in Hh.
    injection Hy as ->. injection Hf as ->. injection Hh as ->. reflexivity.
Qed.

Lemma main_clients_from_environment_witness :
  App.main token_check environ_ok = Config.Loaded (App.Raises (py "Token is invalid!"))
  /\ (exists bot, App.main token_check environ_token = Config.Loaded (App.Constructed bot)
                  /\ App.main token_check environ_token' = Config.Loaded (App.Constructed bot)
                  /\ YandexGPTClient.model_uri (RoadmapGeneratorBot.yandex_client bot)
                     = py "gpt://folder/yandexgpt-lite").
Proof.
  destruct (main_clients_from_environment token_check environ_ok environ_ok)
    as (Hraise & _ & _).
  destruct (main_clients_from_environment token_check environ_token environ_token')
    as (_ & Hbuilt & Hsame).
  pose (b1 := {| RoadmapGeneratorBot.yandex_client :=
                   YandexGPTClient.init (py "ykey") (py "folder");
                 RoadmapGeneratorBot.hyperbolic_client :=
                   HyperbolicClient.init (py "hkey") |}).
  assert (H1 : App.main token_check environ_token = Config.Loaded (App.Constructed b1))
    by (vm_compute; reflexivity).
  assert (H2 : exists b2,
             App.main token_check environ_token' = Config.Loaded (App.Constructed b2))
    by (eexists; vm_compute; reflexivity).
  destruct H2 as [b2 H2].
  split.
  - apply (Hraise (Config.mk (py "t0k") (py "ykey") (py "folder") (py "hkey")));
      vm_compute; reflexivity.
  - exists b1. split; [exact H1|]. split.
    + rewrite (Hsame b1 b2 H1 H2); [exact H2| | |]; vm_compute; reflexivity.
    + destruct (Hbuilt b1 H1) as (token & ykey & folder & hkey & _ & _ & _ & Hf & _ & _ & Hm & _).
      rewrite Hm. vm_compute in Hf. injection Hf as <-. vm_compute. reflexivity.
Defined.

(** ** Bodies the extraction accepts *)

Section Extraction.

Lemma getpath_cons_ok (j v : pyval) (k : pykey) (ks : list pykey) :
  getpath j (k :: ks) = Ok v <-> exists w, getitem j k = Ok w /\ getpath w ks = Ok v.
Proof.
  cbn [getpath]. destruct (getitem j k) as [w|e]; cbn [rbind]; split.
  - intros H. exists w. split; [reflexivity|exact H].
  - intros (w' & [= <-] & H). exact H.
  - discriminate.
  - intros (w' & H & _). discriminate.
Qed.

Lemma getitem_key_ok (j w : pyval) (s : pystr) :
  getitem j (KStr s) = Ok w <-> exists items, j = PDict items /\ assoc s items = Some w.
Proof.
  destruct j as [|b|q|t|l|items]; cbn [getitem];
    try (split; [discriminate|intros (items' & H & _); discriminate]).
  destruct (assoc s items) as [x|] eqn:Hx; split.
  - intros [= <-]. exists items. split; [reflexivity|exact Hx].
  - intros (items' & [= <-] & H). rewrite Hx in H. injection H as <-. reflexivity.
  - discriminate.
  - intros (items' & [= <-] & H). rewrite Hx in H. discriminate.
Qed.

(** [j[0]] of a list is its first element, of a string its first
    character; nothing else has one. *)
Lemma getitem_first_ok (j w : pyval) :
  getitem j (KInt 0) = Ok w
  <-> (exists more, j = PList (w :: more)) \/ (exists c s, j = PStr (c :: s) /\ w = PStr [c]).
Proof.
  destruct j as [|b|q|t|l|items]; cbn [getitem];
    try (split; [discriminate|intros [(m & H)|(c & s & H & _)]; discriminate]).
  - destruct t as [|c s]; cbn; split.
    + discriminate.
    + intros [(m & H)|(c & s & H & _)]; discriminate.
    + intros [= <-]. right. exists c, s. split; reflexivity.
    + intros [(m & H)|(c' & s' & [= <- <-] & ->)]; [discriminate|reflexivity].
  - destruct l as [|x m]; cbn; split.
    + discriminate.
    + intros [(m & H)|(c & s & H & _)]; discriminate.
    + intros [= <-]. left. exists m. reflexivity.
    + intros [(m' & [= <- <-])|(c & s & H & _)]; [reflexivity|discriminate].
Qed.

End Extraction.

Lemma path_ok_iff_shape (j v : pyval) :
  (getpath j YandexGPTClient.TEXT_PATH = Ok v <-> yandex_body_shape j v)
  /\ (getpath j HyperbolicClient.TEXT_PATH = Ok v <-> hyperbolic_body_shape j v).
Proof.
  unfold YandexGPTClient.TEXT_PATH, HyperbolicClient.TEXT_PATH,
    yandex_body_shape, hyperbolic_body_shape.
  split; split.
  - intros H.
    apply getpath_cons_ok in H as (w1 & H1 & H).
    apply getpath_cons_ok in H as (w2 & H2 & H).
    apply getpath_cons_ok in H as (w3 & H3 & H).
    apply getpath_cons_ok in H as (w4 & H4 & H).
    apply getpath_cons_ok in H as (w5 & H5 & H).
    cbn [getpath] in H. injection H as <-.
    apply getitem_key_ok in H1 as (top & -> & H1).
    apply getitem_key_ok in H2 as (result & -> & H2).
    apply getitem_key_ok in H4 as (alternative & -> & H4).
    apply getitem_key_ok in H5 as (message & -> & H5).
    apply getitem_first_ok in H3 as [(more & ->)|(c & s & _ & Hc)]; [|discriminate].
    exists top, result, alternative, more, message. repeat split; assumption.
  - intros (top & result & alternative & more & message & -> & H1 & H2 & H4 & H5).
    cbn [getpath getitem]. rewrite H1. cbn [rbind getitem]. rewrite H2.
    cbn [rbind getitem lookup list_lookup]. rewrite H4. cbn [rbind getitem]. rewrite H5.
    reflexivity.
  - intros H.
    apply getpath_cons_ok in H as (w1 & H1 & H).
    apply getpath_cons_ok in H as (w3 & H3 & H).
    apply getpath_cons_ok in H as (w4 & H4 & H).
    apply getpath_cons_ok in H as (w5 & H5 & H).
    cbn [getpath] in H. injection H as <-.
    apply getitem_key_ok in H1 as (top & -> & H1).
    apply getitem_key_ok in H4 as (choice & -> & H4).
    apply getitem_key_ok in H5 as (message & -> & H5).
    apply getitem_first_ok in H3 as [(more & ->)|(c & s & _ & Hc)]; [|discriminate].
    exists top, choice, more, message. repeat split; assumption.
  - intros (top & choice & more & message & -> & H1 & H4 & H5).
    cbn [getpath getitem]. rewrite H1. cbn [rbind getitem lookup list_lookup].
    rewrite H4. cbn [rbind getitem]. rewrite H5. reflexivity.
Qed.


Lemma path_raises_without_shape (j : pyval) :
  ((forall v, ~ yandex_body_shape j v) ->
     exists e, getpath j YandexGPTClient.TEXT_PATH = Raise e)
  /\ ((forall v, ~ hyperbolic_body_shape j v) ->
     exists e, getpath j HyperbolicClient.TEXT_PATH = Raise e).
Proof.
  split; intros H.
  - destruct (getpath j YandexGPTClient.TEXT_PATH) as [v|e] eqn:Hp; [|eauto].
    exfalso. apply (H v), (proj1 (path_ok_iff_shape j v)), Hp.
  - destruct (getpath j HyperbolicClient.TEXT_PATH) as [v|e] eqn:Hp; [|eauto].
    exfalso. apply (H v), (proj2 (path_ok_iff_shape j v)), Hp.
Qed.

(** X4. On a 2xx response with a JSON body, [generate_roadmap] returns
    the text exactly when the body has the shape object / result /
    alternatives (a non-empty list) / first element / message / text, and
    [generate_analysis] exactly when it has the shape object / choices (a
    non-empty list) / first element / message / content; on every other
    body (a list, a string, a missing key, an empty list, a string in place
    of the list) they return [None]. *)
Theorem extraction_by_shape
    (net : Http.transport) (yc : YandexGPTClient.t) (hc : HyperbolicClient.t)
    (data : gmap pystr pystr) (prompt : pystr) (st : Z) (rs : pystr) (j : pyval) :
  (200 <= st <= 299)%Z ->
  (yandex_exchange net yc data = Http.PostResponse st rs (Some j) ->
     (forall v, yandex_body_shape j v -> YandexGPTClient.generate_roadmap net yc data = v)
     /\ ((forall v, ~ yandex_body_shape j v) ->
         YandexGPTClient.generate_roadmap net yc data = PNone))
  /\ (hyperbolic_exchange net hc prompt = Http.PostResponse st rs (Some j) ->
     (forall v, hyperbolic_body_shape j v ->
        HyperbolicClient.generate_analysis net hc prompt = v)
     /\ ((forall v, ~ hyperbolic_body_shape j v) ->
         HyperbolicClient.generate_analysis net hc prompt = PNone)).
Proof.
  intros Hst. split; intros Hx; split.
  - intros v Hv. apply generate_roadmap_yields. exists st, rs, j.
    split; [exact Hx|]. split; [exact Hst|]. apply path_ok_iff_shape, Hv.
  - intros Hno. apply generate_roadmap_fails. rewrite Hx.
    destruct (proj1 (path_raises_without_shape j) Hno) as [e He].
    apply (fails_shape _ st rs j e He).
  - intros v Hv. apply generate_analysis_yields. exists st, rs, j.
    split; [exact Hx|]. split; [exact Hst|]. apply path_ok_iff_shape, Hv.
  - intros Hno. apply generate_analysis_fails. rewrite Hx.
    destruct (proj2 (path_raises_without_shape j) Hno) as [e He].
    apply (fails_shape _ st rs j e He).
Qed.

Lemma extraction_by_shape_witness :
  YandexGPTClient.generate_roadmap net_string_list (YandexGPTClient.init (py "k") (py "f")) ∅
    = PNone
  /\ HyperbolicClient.generate_analysis net_string_list (HyperbolicClient.init (py "k"))
       (py "p") = PStr (py "ok").
Proof.
  destruct (extraction_by_shape net_string_list (YandexGPTClient.init (py "k") (py "f"))
              (HyperbolicClient.init (py "k")) ∅ (py "p") 200 (py "OK")
              (PDict [(py "result", PDict [(py "alternatives", PStr (py "abc"))])])
              ltac:(lia)) as [Hy _].
  destruct (extraction_by_shape net_string_list (YandexGPTClient.init (py "k") (py "f"))
              (HyperbolicClient.init (py "k")) ∅ (py "p") 200 (py "OK")
              (PDict [(py "choices",
                 PList [PDict [(py "message", PDict [(py "content", PStr (py "ok"))])]])])
              ltac:(lia)) as [_ Hh].
  split.
  - apply (proj2 (Hy eq_refl)).
    intros v (top & result & alternative & more & message & Hj & H1 & H2 & _).
    injection Hj as <-. vm_compute in H1. injection H1 as <-.
    vm_compute in H2. discriminate.
  - apply (proj1 (Hh eq_refl)).
    eexists _, _, _, _. split; [reflexivity|]. repeat split; vm_compute; reflexivity.
Defined.

(** ** Formatting of arbitrary results *)

Lemma safe_strippable (v : pyval) (fallback : pystr) :
  RoadmapGeneratorBot.safe v fallback =
  if strippable v then Ok (body_of v fallback) else Raise AttributeError.
Proof.
  unfold RoadmapGeneratorBot.safe, strippable, body_of.
  destruct v as [|b|q|s|l|items]; cbn [truthy negb].
  - reflexivity.
  - destruct b; reflexivity.
  - destruct (Qnum q =? 0)%Z; reflexivity.
  - destruct s; reflexivity.
  - destruct l; reflexivity.
  - destruct items; reflexivity.
Qed.

(** X5. [_format_responses] on any two values: it raises
    [AttributeError] exactly when one of them is truthy and not a string (a
    non-zero number, [True], a non-empty list or dict); otherwise it
    returns the report, with the fallback for every falsy value ([None],
    empty string, zero, [False], empty list or dict) and the stripped text
    for a non-empty string. *)
Theorem format_raises_iff_not_strippable (yandex hyperbolic : pyval) :
  RoadmapGeneratorBot._format_responses yandex hyperbolic =
  if strippable yandex && strippable hyperbolic
  then Ok (report (body_of yandex RoadmapGeneratorBot.YANDEX_FALLBACK)
                  (body_of hyperbolic RoadmapGeneratorBot.HYPERBOLIC_FALLBACK))
  else Raise AttributeError.
Proof.
  unfold RoadmapGeneratorBot._format_responses, report. rewrite !safe_strippable.
  destruct (strippable yandex); cbn [rbind andb]; [|reflexivity].
  destruct (strippable hyperbolic); reflexivity.
Qed.

(** ** Exceptions of the handlers *)

Section HandlerErrors.
Import Fsm RoadmapGeneratorBot.
Variables (E : Env) (self : RoadmapGeneratorBot.t).

Lemma answer_raises (txt : pystr) (pm : option pystr) (c : Ctx) (e : exn) :
  fst (answer E txt pm c) = Raise e -> exists d, e = TelegramAPIError d.
Proof.
  rewrite answer_run. destruct (tg_send E (outbox c) _) as [d|]; cbn [fst]; [|discriminate].
  intros [= <-]. exists d. reflexivity.
Qed.

Lemma guarded_raises (c : Ctx) (e : exn) :
  fst (guarded E self c) = Raise e -> exists d, e = TelegramAPIError d.
Proof.
  destruct (generate_and_send E self c) as [[[]|e'] c2] eqn:H.
  - rewrite (guarded_ok E self c c2 H). discriminate.
  - rewrite (guarded_raise E self c c2 e' H). apply answer_raises.
Qed.

Lemma roadmap_raises (c : Ctx) (e : exn) :
  fst (_generate_and_send_roadmap E self c) = Raise e -> exists d, e = TelegramAPIError d.
Proof.
  destruct (tg_send E (outbox c) notice) as [d|] eqn:Hn.
  - rewrite (roadmap_rejected E self c d Hn). intros [= <-]. exists d. reflexivity.
  - rewrite (roadmap_run E self c Hn). cbn [fst]. apply guarded_raises.
Qed.

Lemma inv_state (s : Slot) :
  session_inv s -> state s = None \/ exists f, state s = Some (Form.state f).
Proof.
  unfold session_inv. destruct (state s) as [st|]; [|left; reflexivity].
  intros (f & -> & _). right. exists f. reflexivity.
Qed.

End HandlerErrors.

(** X6. In a session that satisfies the session invariant (every session
    reachable from a new chat does), a handler raises nothing but an
    error of Telegram delivery: the lookups [split(":")[1]],
    [_STATE_ORDER.index], [getattr(Form, ...)] and [_QUESTIONS[...]] never
    fail, and an exception of the generation never leaves the handler. *)
Theorem handlers_raise_only_delivery_errors
    (E : Fsm.Env) (self : RoadmapGeneratorBot.t) (c : Fsm.Ctx) (o : op) (e : exn) :
  session_inv (Fsm.slot c) ->
  fst (exec E self o c) = Raise e ->
  exists detail, e = TelegramAPIError detail.
Proof.
  intros Hinv. destruct o as [|txt]; cbn [exec].
  - rewrite start_command_run.
    destruct (Fsm.answer E RoadmapGeneratorBot.WELCOME None c) as [[[]|e'] c'] eqn:Hw.
    + apply answer_raises.
    + intros [= <-]. apply (answer_raises E RoadmapGeneratorBot.WELCOME None c).
      rewrite Hw. reflexivity.
  - destruct (inv_state _ Hinv) as [Hn|[f Hf]].
    + rewrite (process_answer_idle E self txt c Hn). discriminate.
    + rewrite (process_answer_active E self txt c f Hf). destruct (next f) as [g|].
      * rewrite ask_question_run. apply answer_raises.
      * apply roadmap_raises.
Qed.

Lemma handlers_raise_only_delivery_errors_witness :
  fst (exec (Fsm.mkEnv net_number_text tg_rejects_failure) bot0 (SubmitAnswer (py "x")) at_last)
  = Raise (TelegramAPIError (py "Bad Request")).
Proof.
  assert (Hr : fst (exec (Fsm.mkEnv net_number_text tg_rejects_failure) bot0
                      (SubmitAnswer (py "x")) at_last)
               = Raise (TelegramAPIError (py "Bad Request"))) by (vm_compute; reflexivity).
  assert (Hinv : session_inv (Fsm.slot at_last)) by (apply inv_run, inv_fresh).
  destruct (handlers_raise_only_delivery_errors _ bot0 at_last (SubmitAnswer (py "x")) _
              Hinv Hr) as [d Hd].
  exact Hr.
Defined.

(** X7. The defensive paths of [process_answer]: a state string without
    colon makes it raise [IndexError] before anything is stored; a state
    whose name after the colon is not in [_STATE_ORDER] is treated as the
    last step: the answer is stored under that name and the roadmap is
    generated. *)
Theorem process_answer_unknown_state
    (E : Fsm.Env) (self : RoadmapGeneratorBot.t) (c : Fsm.Ctx)
    (current rawText : pystr) :
  Fsm.state (Fsm.slot c) = Some current -> current <> [] ->
  (split COLON current !! 1%nat = None ->
     RoadmapGeneratorBot.process_answer E self rawText c = (Raise IndexError, c))
  /\ (forall name, split COLON current !! 1%nat = Some name ->
        index name RoadmapGeneratorBot._STATE_ORDER = None ->
        RoadmapGeneratorBot.process_answer E self rawText c =
        RoadmapGeneratorBot._generate_and_send_roadmap E self
          (stored name (strip rawText) c)).
Proof.
  intros Hst Hne. split.
  - intros Hsplit. unfold RoadmapGeneratorBot.process_answer, Fsm.bind at 1, Fsm.get_state.
    rewrite Hst. rewrite bool_decide_eq_false_2 by exact Hne.
    unfold Fsm.bind at 1, Fsm.lift at 1. rewrite Hsplit. reflexivity.
  - intros name Hsplit Hidx.
    unfold RoadmapGeneratorBot.process_answer, Fsm.bind at 1, Fsm.get_state.
    rewrite Hst. rewrite bool_decide_eq_false_2 by exact Hne.
    unfold Fsm.bind at 1, Fsm.lift at 1. rewrite Hsplit.
    unfold Fsm.bind at 1, Fsm.proxy_setitem. fold (stored name (strip rawText) c).
    unfold RoadmapGeneratorBot.next_state_name. rewrite Hidx. reflexivity.
Qed.

Lemma process_answer_unknown_state_witness :
  Fsm.slot (snd (RoadmapGeneratorBot.process_answer env_ok bot0 (py " chess ") odd_state))
    = Fsm.empty
  /\ RoadmapGeneratorBot.process_answer env_ok bot0 (py "x")
       (Fsm.mkCtx (Fsm.mkSlot (Some (py "nocolon")) ∅) [])
     = (Raise IndexError, Fsm.mkCtx (Fsm.mkSlot (Some (py "nocolon")) ∅) []).
Proof.
  split.
  - destruct (process_answer_unknown_state env_ok bot0 odd_state (py "Other:hobby")
                (py " chess ") eq_refl ltac:(discriminate)) as [_ H].
    rewrite (H (py "hobby")); [|reflexivity|reflexivity].
    rewrite roadmap_slot. reflexivity.
  - destruct (process_answer_unknown_state env_ok bot0
                (Fsm.mkCtx (Fsm.mkSlot (Some (py "nocolon")) ∅) []) (py "nocolon")
                (py "x") eq_refl ltac:(discriminate)) as [H _].
    apply H. reflexivity.
Defined.

(** X8. A handler sets the state before it sends the question: when
    Telegram rejects the welcome text, [start] changes nothing; when it
    rejects the first question, the session is at the first field all the
    same; when it rejects the next question after an answer, the answer is
    stored and the session is at the next field all the same.  Each time
    the handler raises the delivery error. *)
Theorem state_moves_before_question_is_sent
    (E : Fsm.Env) (self : RoadmapGeneratorBot.t) (c : Fsm.Ctx) (detail : pystr) :
  let welcome := Fsm.mkOut RoadmapGeneratorBot.WELCOME None in
  (Fsm.tg_send E (Fsm.outbox c) welcome = Some detail ->
     RoadmapGeneratorBot.start_command E c = (Raise (TelegramAPIError detail), c))
  /\ (Fsm.tg_send E (Fsm.outbox c) welcome = None ->
      Fsm.tg_send E (Fsm.outbox c ++ [welcome]) (Fsm.mkOut (question Form.profession) None)
        = Some detail ->
      RoadmapGeneratorBot.start_command E c =
        (Raise (TelegramAPIError detail), moved Form.profession (delivered welcome c)))
  /\ (forall f g rawText,
        Fsm.state (Fsm.slot c) = Some (Form.state f) -> next f = Some g ->
        Fsm.tg_send E (Fsm.outbox c) (Fsm.mkOut (question g) None) = Some detail ->
        RoadmapGeneratorBot.process_answer E self rawText c =
          (Raise (TelegramAPIError detail), moved g (stored (Form.name f) (strip rawText) c))).
Proof.
  intros welcome. split; [|split].
  - intros Hw. rewrite start_command_run, answer_run. fold welcome. rewrite Hw. reflexivity.
  - intros Hw Hq. rewrite start_command_run, answer_run. fold welcome. rewrite Hw.
    rewrite answer_run.
    change (Fsm.outbox (moved Form.profession (delivered welcome c)))
      with (Fsm.outbox c ++ [welcome]).
    rewrite Hq. reflexivity.
  - intros f g rawText Hf Hg Hq.
    rewrite (process_answer_active E self rawText c f Hf), Hg.
    rewrite ask_question_run, answer_run.
    change (Fsm.outbox (moved g (stored (Form.name f) (strip rawText) c)))
      with (Fsm.outbox c).
    rewrite Hq. reflexivity.
Qed.

Lemma state_moves_before_question_is_sent_witness :
  RoadmapGeneratorBot.start_command (Fsm.mkEnv net_down tg_rejects_all) at_goals
    = (Raise (TelegramAPIError (py "Forbidden")), at_goals)
  /\ Fsm.state (Fsm.slot (snd (RoadmapGeneratorBot.start_command
                                 (Fsm.mkEnv net_down tg_rejects_questions) at_goals)))
     = Some (Form.state Form.profession)
  /\ Fsm.state (Fsm.slot (snd (RoadmapGeneratorBot.process_answer
                                 (Fsm.mkEnv net_down tg_rejects_questions) bot0
                                 (py "lead") at_goals)))
     = Some (Form.state Form.skills).
Proof.
  destruct (state_moves_before_question_is_sent (Fsm.mkEnv net_down tg_rejects_all) bot0
              at_goals (py "Forbidden")) as (H1 & _).
  destruct (state_moves_before_question_is_sent (Fsm.mkEnv net_down tg_rejects_questions)
              bot0 at_goals (py "Bad Request")) as (_ & H2 & H3).
  split; [apply H1; reflexivity|]. split.
  - rewrite H2; [reflexivity|vm_compute; reflexivity|vm_compute; reflexivity].
  - rewrite (H3 Form.goals Form.skills (py "lead"));
      [reflexivity|reflexivity|reflexivity|vm_compute; reflexivity].
Defined.

(** ** The generation when Telegram rejects a message *)

(** X9. When Telegram rejects the "analysing" notice, the handler of the
    last answer raises the delivery error before the [try]: nothing is
    generated and nothing is cleaned up, the session stays at the last
    field with the answer stored, and an answer sent again once the
    notice can be delivered completes the form. *)
Theorem notice_rejected_session_stays
    (E E' : Fsm.Env) (self : RoadmapGeneratorBot.t) (c : Fsm.Ctx)
    (rawText again detail : pystr) :
  Fsm.state (Fsm.slot c) = Some (Form.state Form.preferences) ->
  Fsm.tg_send E (Fsm.outbox c) notice = Some detail ->
  let kept := stored (Form.name Form.preferences) (strip rawText) c in
  RoadmapGeneratorBot.process_answer E self rawText c = (Raise (TelegramAPIError detail), kept)
  /\ (Fsm.tg_send E' (Fsm.outbox c) notice = None ->
      Fsm.slot (step E' self kept (SubmitAnswer again)) = Fsm.empty).
Proof.
  intros Hst Hn kept. split.
  - rewrite (process_answer_active E self rawText c _ Hst). cbn [next].
    apply roadmap_rejected. exact Hn.
  - intros Hok. unfold step. cbn [exec].
    rewrite (process_answer_slot E' self again kept Form.preferences) by exact Hst.
    cbn [next]. change (Fsm.outbox kept) with (Fsm.outbox c). rewrite Hok. reflexivity.
Qed.

Lemma notice_rejected_session_stays_witness :
  RoadmapGeneratorBot.process_answer (Fsm.mkEnv net_down tg_rejects_all) bot0 (py " remote ")
    last_step
  = (Raise (TelegramAPIError (py "Forbidden")), stored (py "preferences") (py "remote") last_step)
  /\ Fsm.slot (step env_ok bot0 (stored (py "preferences") (py "remote") last_step)
                 (SubmitAnswer (py "remote"))) = Fsm.empty.
Proof.
  destruct (notice_rejected_session_stays (Fsm.mkEnv net_down tg_rejects_all) env_ok bot0
              last_step (py " remote ") (py "remote") (py "Forbidden") eq_refl eq_refl)
    as [H1 H2].
  split; [exact H1|]. apply H2. reflexivity.
Defined.

(** X10. When the [try] raises and Telegram rejects the generic failure
    message as well, the [finally] block still runs: the session is reset
    and the closing message is attempted, and the handler raises the
    delivery error of the failure message. *)
Theorem failure_message_rejected_still_cleans
    (E : Fsm.Env) (self : RoadmapGeneratorBot.t) (c c2 : Fsm.Ctx) (e : exn)
    (detail : pystr) :
  Fsm.tg_send E (Fsm.outbox c) notice = None ->
  RoadmapGeneratorBot.generate_and_send E self (delivered notice c) = (Raise e, c2) ->
  Fsm.tg_send E (Fsm.outbox c ++ [notice]) failure_notice = Some detail ->
  RoadmapGeneratorBot._generate_and_send_roadmap E self c =
  (Raise (TelegramAPIError detail),
   Fsm.mkCtx Fsm.empty ((Fsm.outbox c ++ [notice]) ++ done_tail E (Fsm.outbox c ++ [notice]))).
Proof.
  intros Hn He Hf. rewrite (roadmap_run E self c Hn).
  rewrite (guarded_raise E self _ _ _ He), answer_run.
  change (Fsm.outbox (delivered notice c)) with (Fsm.outbox c ++ [notice]).
  fold failure_notice. rewrite Hf. reflexivity.
Qed.

Lemma failure_message_rejected_still_cleans_witness :
  RoadmapGeneratorBot._generate_and_send_roadmap
    (Fsm.mkEnv net_number_text tg_rejects_failure) bot0 last_step
  = (Raise (TelegramAPIError (py "Bad Request")), Fsm.mkCtx Fsm.empty [notice; done_notice]).
Proof.
  apply (failure_message_rejected_still_cleans (Fsm.mkEnv net_number_text tg_rejects_failure)
           bot0 last_step (delivered notice last_step) AttributeError (py "Bad Request")).
  - reflexivity.
  - vm_compute. reflexivity.
  - reflexivity.
Defined.

(** ** A whole dialogue *)

Section Transcript.
Import Fsm RoadmapGeneratorBot.
Variables (E : Env) (self : RoadmapGeneratorBot.t).
Hypothesis accepts : forall log m, tg_send E log m = None.

Lemma guarded_accepting (c : Ctx) :
  guarded E self c = (Ok tt, delivered (result_message E self (data (slot c))) c).
Proof.
  unfold guarded, try_except, result_message. rewrite generate_and_send_run.
  destruct (aggregated (net E) self (data (slot c))) as [r|e];
    rewrite answer_run, accepts; reflexivity.
Qed.

Lemma roadmap_accepting (c : Ctx) :
  _generate_and_send_roadmap E self c =
  (Ok tt, mkCtx Fsm.empty
            (outbox c ++ [notice; result_message E self (data (slot c)); done_notice])).
Proof.
  rewrite (roadmap_run E self c (accepts _ _)), guarded_accepting.
  cbn [fst snd]. unfold cleaned, done_tail. rewrite accepts.
  unfold delivered. cbn [outbox slot]. rewrite <- !app_assoc. reflexivity.
Qed.

Lemma step_last_accepting (txt : pystr) (c : Ctx) :
  state (slot c) = Some (Form.state Form.preferences) ->
  step E self c (SubmitAnswer txt) =
  mkCtx Fsm.empty
    (outbox c ++ [notice;
                  result_message E self (<[Form.name Form.preferences := strip txt]> (data (slot c)));
                  done_notice]).
Proof.
  intros H. unfold step. cbn [exec].
  rewrite (process_answer_active E self txt c _ H). cbn [next].
  rewrite roadmap_accepting. reflexivity.
Qed.

End Transcript.

(** X11. With Telegram taking every message, [start] and five answers
    send, after what the chat had received: the welcome text, the five
    questions in order, the "analysing" notice, then the report as Markdown
    or, when formatting raised, the generic failure message, then the
    closing message; the report is computed from the five stripped
    answers. *)
Theorem full_dialogue_transcript
    (E : Fsm.Env) (self : RoadmapGeneratorBot.t) (c : Fsm.Ctx) (t1 t2 t3 t4 t5 : pystr) :
  (forall log m, Fsm.tg_send E log m = None) ->
  Fsm.outbox (run E self (Start :: (SubmitAnswer <$> [t1; t2; t3; t4; t5])) c) =
  Fsm.outbox c
  ++ Fsm.mkOut RoadmapGeneratorBot.WELCOME None
     :: ((fun f => Fsm.mkOut (question f) None) <$> Form.all)
  ++ [notice;
      result_message E self
        (answered (Fsm.data (Fsm.slot c)) (strip t1) (strip t2) (strip t3) (strip t4) (strip t5));
      done_notice].
Proof.
  intros Hacc. cbn [run fold_left fmap list_fmap].
  rewrite (step_start_ok E self Hacc).
  rewrite (step_answer_ok E self Hacc Form.profession Form.experience t1) by reflexivity.
  rewrite (step_answer_ok E self Hacc Form.experience Form.goals t2) by reflexivity.
  rewrite (step_answer_ok E self Hacc Form.goals Form.skills t3) by reflexivity.
  rewrite (step_answer_ok E self Hacc Form.skills Form.preferences t4) by reflexivity.
  rewrite (step_last_accepting E self Hacc t5) by reflexivity.
  cbn [Fsm.outbox Fsm.slot Fsm.data]. unfold answered.
  rewrite <- !app_assoc. reflexivity.
Qed.

Lemma full_dialogue_transcript_witness :
  length (Fsm.outbox (run env_ok bot0
            (Start :: (SubmitAnswer <$> [py "QA"; py "junior"; py "lead"; py "sql"; py "remote"]))
            fresh)) = 9%nat.
Proof.
  rewrite (full_dialogue_transcript env_ok bot0 fresh (py "QA") (py "junior") (py "lead")
             (py "sql") (py "remote") (fun _ _ => eq_refl)).
  reflexivity.
Defined.

(** ** Answers from before a restart *)

Section FreshAnswers.
Variables (net : Http.transport) (self : RoadmapGeneratorBot.t).

Lemma yandex_payload_by_prompt (yc : YandexGPTClient.t) (d1 d2 : gmap pystr pystr) :
  YandexGPTClient._build_prompt d1 = YandexGPTClient._build_prompt d2 ->
  YandexGPTClient.payload yc d1 = YandexGPTClient.payload yc d2.
Proof. intros H. unfold YandexGPTClient.payload. rewrite H. reflexivity. Qed.

Lemma aggregated_by_prompt (d1 d2 : gmap pystr pystr) :
  YandexGPTClient._build_prompt d1 = YandexGPTClient._build_prompt d2 ->
  aggregated net self d1 = aggregated net self d2.
Proof.
  intros H. unfold aggregated, YandexGPTClient.generate_roadmap, YandexGPTClient.request.
  rewrite (yandex_payload_by_prompt _ d1 d2 H), H. reflexivity.
Qed.

Lemma answered_field_text (old : gmap pystr pystr) (a1 a2 a3 a4 a5 : pystr) (f : Form.t) :
  field_text (answered old a1 a2 a3 a4 a5) (Form.name f) =
  match f with
  | Form.profession => a1
  | Form.experience => a2
  | Form.goals => a3
  | Form.skills => a4
  | Form.preferences => a5
  end.
Proof.
  unfold answered. rewrite !field_text_insert.
  destruct f;
    repeat (rewrite decide_False by discriminate);
    rewrite decide_True by reflexivity; reflexivity.
Qed.

End FreshAnswers.

(** X12. Answers left in the session from before a restart never reach
    the backends: once the five fields have been answered again, the
    prompt, both requests and the report are those of the five new answers
    alone, whatever the session held before. *)
Theorem new_answers_replace_old_ones
    (E : Fsm.Env) (self : RoadmapGeneratorBot.t) (old : gmap pystr pystr)
    (a1 a2 a3 a4 a5 : pystr) :
  let now := answered old a1 a2 a3 a4 a5 in
  let alone := answered ∅ a1 a2 a3 a4 a5 in
  YandexGPTClient._build_prompt now = YandexGPTClient._build_prompt alone
  /\ yandex_outcome (Fsm.net E) self now = yandex_outcome (Fsm.net E) self alone
  /\ hyperbolic_outcome (Fsm.net E) self now = hyperbolic_outcome (Fsm.net E) self alone
  /\ result_message E self now = result_message E self alone.
Proof.
  intros now alone.
  assert (Hp : YandexGPTClient._build_prompt now = YandexGPTClient._build_prompt alone).
  { apply build_prompt_ext. intros f. subst now alone. rewrite !answered_field_text.
    reflexivity. }
  split; [exact Hp|]. split; [|split].
  - unfold yandex_outcome, yandex_exchange.
    rewrite (yandex_payload_by_prompt _ now alone Hp). reflexivity.
  - unfold hyperbolic_outcome. rewrite Hp. reflexivity.
  - unfold result_message. rewrite (aggregated_by_prompt _ self now alone Hp). reflexivity.
Qed.

(** ** Stored answers *)

Section Stripped.
Import Fsm RoadmapGeneratorBot.

Lemma lstrip_fixed (s : pystr) :
  (forall c r, s = c :: r -> isspace c = false) -> lstrip s = s.
Proof.
  destruct s as [|c r]; [reflexivity|]. intros H. cbn [lstrip].
  rewrite (H c r eq_refl). reflexivity.
Qed.

Lemma strip_idempotent (s : pystr) : strip (strip s) = strip s.
Proof.
  destruct (strip_stripped s) as (_ & Hhead & Hlast).
  set (t := strip s) in *. unfold strip at 1.
  rewrite (lstrip_fixed t Hhead). unfold rstrip.
  rewrite lstrip_fixed; [apply rev_involutive|].
  intros c r Hr. apply (Hlast c (rev r)).
  rewrite <- (rev_involutive t), Hr. reflexivity.
Qed.

Variables (E : Env) (self : RoadmapGeneratorBot.t).

Lemma stripped_insert (d : gmap pystr pystr) (st : option pystr) (k txt : pystr) :
  (forall k' v, d !! k' = Some v -> strip v = v) ->
  all_stripped (mkSlot st (<[k := strip txt]> d)).
Proof.
  intros H k' v. cbn [data]. rewrite lookup_insert. destruct (decide (k = k')) as [_|_].
  - intros [= <-]. apply strip_idempotent.
  - apply H.
Qed.

Lemma stripped_step (c : Ctx) (o : op) :
  session_inv (slot c) -> all_stripped (slot c) -> all_stripped (slot (step E self c o)).
Proof.
  intros Hinv Hs. unfold step. destruct o as [|txt]; cbn [exec].
  - rewrite start_command_slot. destruct (tg_send E _ _); [exact Hs|].
    intros k v. apply Hs.
  - destruct (inv_state _ Hinv) as [Hn|[f Hf]].
    + rewrite (process_answer_idle E self txt c Hn). exact Hs.
    + rewrite (process_answer_slot E self txt c f Hf). destruct (next f) as [g|].
      * apply stripped_insert, Hs.
      * destruct (tg_send E _ _); [apply stripped_insert, Hs|].
        intros k v Hk. cbn in Hk. rewrite lookup_empty in Hk. discriminate.
Qed.

Lemma stripped_run (ops : list op) (c : Ctx) :
  session_inv (slot c) -> all_stripped (slot c) -> all_stripped (slot (run E self ops c)).
Proof.
  revert c. induction ops as [|o ops IH]; intros c Hi Hs; [exact Hs|].
  cbn [run fold_left]. apply IH; [apply inv_step, Hi|apply stripped_step; assumption].
Qed.

End Stripped.

(** X13. Every answer a reachable session holds is stripped: it has no
    leading or trailing white space, and stripping it again changes
    nothing. *)
Theorem stored_answers_are_stripped
    (E : Fsm.Env) (self : RoadmapGeneratorBot.t) (ops : list op) (k v : pystr) :
  Fsm.data (Fsm.slot (run E self ops fresh)) !! k = Some v ->
  strip v = v /\ stripped_of v v.
Proof.
  intros H.
  assert (Hs : strip v = v).
  { apply (stripped_run E self ops fresh inv_fresh) with (k := k); [|exact H].
    intros k' v' Hk. cbn in Hk. rewrite lookup_empty in Hk. discriminate. }
  split; [exact Hs|]. rewrite <- Hs at 2. apply strip_stripped.
Qed.

Lemma stored_answers_are_stripped_witness :
  strip (py "lead a team") = py "lead a team".
Proof.
  apply (stored_answers_are_stripped env_ok bot0
           [Start; SubmitAnswer (py "QA"); SubmitAnswer (py "  lead a team  ")]
           (py "experience") (py "lead a team")).
  vm_compute. reflexivity.
Defined.

(** ** What the bot sends *)

Section Messages.
Import Fsm RoadmapGeneratorBot.
Variables (E : Env) (self : RoadmapGeneratorBot.t).

Lemma fixed_message (txt : pystr) :
  txt ∈ FIXED_TEXTS -> bot_message E self (mkOut txt None).
Proof. intros H. left. split; [reflexivity|exact H]. Qed.

Lemma welcome_fixed : WELCOME ∈ FIXED_TEXTS.
Proof. unfold FIXED_TEXTS. apply elem_of_app. left. apply list_elem_of_here. Qed.

Lemma analysing_fixed : ANALYSING ∈ FIXED_TEXTS.
Proof.
  unfold FIXED_TEXTS. apply elem_of_app. left.
  apply list_elem_of_further, list_elem_of_here.
Qed.

Lemma failed_fixed : GENERATION_FAILED ∈ FIXED_TEXTS.
Proof.
  unfold FIXED_TEXTS. apply elem_of_app. left.
  apply list_elem_of_further, list_elem_of_further, list_elem_of_here.
Qed.

Lemma done_fixed : DONE ∈ FIXED_TEXTS.
Proof.
  unfold FIXED_TEXTS. apply elem_of_app. left.
  apply list_elem_of_further, list_elem_of_further, list_elem_of_further, list_elem_of_here.
Qed.

Lemma form_all (f : Form.t) : f ∈ Form.all.
Proof.
  unfold Form.all. destruct f.
  - apply list_elem_of_here.
  - apply list_elem_of_further, list_elem_of_here.
  - apply list_elem_of_further, list_elem_of_further, list_elem_of_here.
  - apply list_elem_of_further, list_elem_of_further, list_elem_of_further, list_elem_of_here.
  - apply list_elem_of_further, list_elem_of_further, list_elem_of_further,
      list_elem_of_further, list_elem_of_here.
Qed.

Lemma question_fixed (f : Form.t) : question f ∈ FIXED_TEXTS.
Proof.
  unfold FIXED_TEXTS. apply elem_of_app. right.
  apply list_elem_of_fmap. exists f. split; [reflexivity|apply form_all].
Qed.

Lemma answer_messages (txt : pystr) (pm : option pystr) (c : Ctx) :
  bot_message E self (mkOut txt pm) ->
  Forall (bot_message E self) (outbox c) ->
  Forall (bot_message E self) (outbox (snd (answer E txt pm c))).
Proof.
  intros Hm Hc. rewrite answer_run. destruct (tg_send E _ _); [exact Hc|].
  cbn [snd delivered outbox]. apply Forall_app. split; [exact Hc|].
  constructor; [exact Hm|constructor].
Qed.

Lemma guarded_messages (c : Ctx) :
  Forall (bot_message E self) (outbox c) ->
  Forall (bot_message E self) (outbox (snd (guarded E self c))).
Proof.
  intros Hc. destruct (generate_and_send E self c) as [[[]|e] c2] eqn:H.
  - rewrite (guarded_ok E self c c2 H). cbn [snd].
    rewrite generate_and_send_run in H.
    destruct (aggregated (net E) self (data (slot c))) as [r|e] eqn:Hr; [|discriminate].
    rewrite <- (f_equal snd H : snd (answer E r (Some (py "Markdown")) c) = c2).
    apply answer_messages; [|exact Hc].
    right. split; [reflexivity|]. exists (data (slot c)). exact Hr.
  - rewrite (guarded_raise E self c c2 e H).
    apply answer_messages; [|exact Hc].
    apply fixed_message, failed_fixed.
Qed.

Lemma roadmap_messages (c : Ctx) :
  Forall (bot_message E self) (outbox c) ->
  Forall (bot_message E self) (outbox (snd (_generate_and_send_roadmap E self c))).
Proof.
  intros Hc. destruct (tg_send E (outbox c) notice) as [d|] eqn:Hn.
  - rewrite (roadmap_rejected E self c d Hn). exact Hc.
  - rewrite (roadmap_run E self c Hn). cbn [snd]. unfold cleaned. cbn [outbox].
    assert (Hg : Forall (bot_message E self)
                   (outbox (snd (guarded E self (delivered notice c))))).
    { apply guarded_messages. unfold delivered. cbn [outbox].
      apply Forall_app. split; [exact Hc|]. constructor; [|constructor].
      apply fixed_message, analysing_fixed. }
    apply Forall_app. split; [exact Hg|].
    unfold done_tail. destruct (tg_send E _ done_notice); constructor; [|constructor].
    apply fixed_message, done_fixed.
Qed.

Lemma step_messages (c : Ctx) (o : op) :
  session_inv (slot c) ->
  Forall (bot_message E self) (outbox c) ->
  Forall (bot_message E self) (outbox (step E self c o)).
Proof.
  intros Hinv Hc. unfold step. destruct o as [|txt]; cbn [exec].
  - rewrite start_command_run.
    pose proof (answer_messages WELCOME None c) as Hw.
    destruct (answer E WELCOME None c) as [[[]|e] c'] eqn:Ha; cbn [snd] in Hw.
    + apply answer_messages; [apply fixed_message, question_fixed|].
      unfold moved. cbn [outbox]. apply Hw; [|exact Hc].
      apply fixed_message, welcome_fixed.
    + cbn [snd]. apply Hw; [|exact Hc].
      apply fixed_message, welcome_fixed.
  - destruct (inv_state _ Hinv) as [Hn|[f Hf]].
    + rewrite (process_answer_idle E self txt c Hn). exact Hc.
    + rewrite (process_answer_active E self txt c f Hf). destruct (next f) as [g|].
      * rewrite ask_question_run.
        apply answer_messages; [apply fixed_message, question_fixed|exact Hc].
      * apply roadmap_messages. exact Hc.
Qed.

End Messages.

(** X14. Everything the bot ever sends in a dialogue is one of its
    fixed texts (welcome, the five questions, notice, generic failure
    message, closing message), sent without parse mode, or a report of the
    two backends' answers, sent as Markdown; the text of an exception is
    never sent. *)
Theorem only_fixed_texts_and_reports
    (E : Fsm.Env) (self : RoadmapGeneratorBot.t) (ops : list op) :
  Forall (bot_message E self) (Fsm.outbox (run E self ops fresh)).
Proof.
  assert (H : forall c, session_inv (Fsm.slot c) ->
              Forall (bot_message E self) (Fsm.outbox c) ->
              Forall (bot_message E self) (Fsm.outbox (run E self ops c))).
  { induction ops as [|o ops IH]; intros c Hi Hc; [exact Hc|].
    cbn [run fold_left]. apply IH; [apply inv_step, Hi|apply step_messages; assumption]. }
  apply H; [apply inv_fresh|constructor].
Qed.

(** ** The dispatcher *)

Section DispatchFacts.
Import Fsm RoadmapGeneratorBot.

Lemma registered (f : Form.t) : Form.state f ∈ App.REGISTERED_STATES.
Proof.
  unfold App.REGISTERED_STATES. destruct f.
  - apply list_elem_of_here.
  - apply list_elem_of_further, list_elem_of_here.
  - apply list_elem_of_further, list_elem_of_further, list_elem_of_here.
  - apply list_elem_of_further, list_elem_of_further, list_elem_of_further, list_elem_of_here.
  - apply list_elem_of_further, list_elem_of_further, list_elem_of_further,
      list_elem_of_further, list_elem_of_here.
Qed.

End DispatchFacts.

(** X16. For a session that satisfies the session invariant, the
    dispatcher with the registered filters does what the handlers say.
    When the command filter raises, no handler runs: the exception leaves
    the dispatcher and the session and the chat are as before.  When the
    filter passes, [start_command] runs, in any state; when it does not
    pass, the message is for [process_answer], and the state filter only
    ever withholds messages that [process_answer] would ignore: a text in
    a session without state changes nothing and sends nothing.  The
    invariant holds again afterwards. *)
Theorem dispatch_agrees_with_operations
    (commands_start : pystr -> res bool) (E : Fsm.Env) (self : RoadmapGeneratorBot.t)
    (c : Fsm.Ctx) (message_text : pystr) :
  session_inv (Fsm.slot c) ->
  (forall e, commands_start message_text = Raise e ->
             App.dispatch commands_start E self message_text c = (Raise e, c))
  /\ (commands_start message_text = Ok true ->
      App.dispatch commands_start E self message_text c
      = RoadmapGeneratorBot.start_command E c)
  /\ (commands_start message_text = Ok false ->
      App.dispatch commands_start E self message_text c
      = RoadmapGeneratorBot.process_answer E self message_text c)
  /\ (commands_start message_text = Ok false -> Fsm.state (Fsm.slot c) = None ->
      App.dispatch commands_start E self message_text c = (Ok tt, c))
  /\ session_inv (Fsm.slot (snd (App.dispatch commands_start E self message_text c))).
Proof.
  intros Hinv.
  assert (Hraise : forall e, commands_start message_text = Raise e ->
            App.dispatch commands_start E self message_text c = (Raise e, c)).
  { intros e He. unfold App.dispatch, Fsm.bind, Fsm.lift. rewrite He. reflexivity. }
  assert (Hstart : commands_start message_text = Ok true ->
            App.dispatch commands_start E self message_text c
            = RoadmapGeneratorBot.start_command E c).
  { intros He. unfold App.dispatch, Fsm.bind, Fsm.lift. rewrite He. reflexivity. }
  assert (Hanswer : commands_start message_text = Ok false ->
            App.dispatch commands_start E self message_text c
            = RoadmapGeneratorBot.process_answer E self message_text c).
  { intros He. unfold App.dispatch, Fsm.bind, Fsm.lift, Fsm.get_state. rewrite He.
    destruct (inv_state _ Hinv) as [Hn|[f Hf]].
    - rewrite Hn, (process_answer_idle E self message_text c Hn). reflexivity.
    - rewrite Hf. rewrite bool_decide_eq_true_2 by apply registered. reflexivity. }
  split; [exact Hraise|]. split; [exact Hstart|]. split; [exact Hanswer|]. split.
  - intros He Hn. rewrite (Hanswer He). apply process_answer_idle, Hn.
  - destruct (commands_start message_text) as [[|]|e] eqn:He.
    + rewrite (Hstart eq_refl). apply (inv_step E self c Start Hinv).
    + rewrite (Hanswer eq_refl). apply (inv_step E self c (SubmitAnswer message_text) Hinv).
    + rewrite (Hraise e eq_refl). exact Hinv.
Qed.

Lemma dispatch_agrees_with_operations_witness :
  App.dispatch first_word_start env_ok bot0 (py "   ") at_goals = (Raise ValueError, at_goals)
  /\ App.dispatch first_word_start env_ok bot0 (py "hello") fresh = (Ok tt, fresh)
  /\ Fsm.state (Fsm.slot (snd (App.dispatch first_word_start env_ok bot0 (py "/start")
                                 at_goals)))
     = Some (Form.state Form.profession)
  /\ Fsm.state (Fsm.slot (snd (App.dispatch first_word_start env_ok bot0 (py "Lead")
                                 at_goals)))
     = Some (Form.state Form.skills).
Proof.
  assert (Hinv : session_inv (Fsm.slot at_goals)).
  { exists Form.goals. split; [reflexivity|]. split.
    - intros g Hg. destruct g; cbn [rank] in Hg; try lia; vm_compute; eauto.
    - intros k [v Hk]. unfold at_goals in Hk. cbn [Fsm.slot Fsm.data] in Hk.
      apply lookup_insert_Some in Hk as [[<- _]|[_ Hk]]; [exists Form.experience; reflexivity|].
      apply lookup_insert_Some in Hk as [[<- _]|[_ Hk]]; [exists Form.profession; reflexivity|].
      rewrite lookup_empty in Hk. discriminate. }
  destruct (dispatch_agrees_with_operations first_word_start env_ok bot0 at_goals (py "   ")
              Hinv) as (H1 & _).
  destruct (dispatch_agrees_with_operations first_word_start env_ok bot0 fresh (py "hello")
              inv_fresh) as (_ & _ & _ & H2 & _).
  destruct (dispatch_agrees_with_operations first_word_start env_ok bot0 at_goals (py "/start")
              Hinv) as (_ & H3 & _).
  destruct (dispatch_agrees_with_operations first_word_start env_ok bot0 at_goals (py "Lead")
              Hinv) as (_ & _ & H4 & _).
  split; [apply H1; vm_compute; reflexivity|].
  split; [apply H2; vm_compute; reflexivity|].
  split.
  - rewrite H3 by (vm_compute; reflexivity). vm_compute. reflexivity.
  - rewrite H4 by (vm_compute; reflexivity). vm_compute. reflexivity.
Defined.
